(** * Todo API: ownership, listing and partial update

    A shallow embedding of [controllers/todoController.js] and
    [routes/todos.js].  A handler is a function from the collection and
    a request to a response and the new collection.  What the handlers
    delegate to JavaScript, express-validator and Mongoose comes first,
    each definition saying where it covers less than the library does. *)

From Stdlib Require Import ZArith String Ascii DecimalString.
From stdpp Require Import base option list sorting gmap strings.

Local Open Scope string_scope.
Local Open Scope Z_scope.
Local Open Scope list_scope.

(** ** JavaScript values and built-ins *)

Module JS.

(** The scalar JSON values a request body can carry.  [JNum] holds an
    integer-valued number (below 2^53 in absolute value, where the
    decimal rendering of a number is its digit string); arrays, objects
    and fractional numbers are outside the model.  An absent key of an
    object ([undefined]) is a failed lookup, so [None] and [Some JNull]
    stay distinct. *)
Inductive JSON : Type :=
| JNull
| JBool (b : bool)
| JNum (n : Z)
| JStr (s : string).

#[global] Instance JSON_eq_dec : EqDecision JSON.
Proof. solve_decision. Defined.

(** [String(n)] for an integer. *)
Definition showZ (n : Z) : string := NilEmpty.string_of_int (Z.to_int n).

(** Truthiness, as the conditions [x ? a : b], [x || d] and [if (x)] see
    it. *)
Definition truthy (v : JSON) : bool :=
  match v with
  | JNull => false
  | JBool b => b
  | JNum n => negb (n =? 0)
  | JStr s => negb (String.eqb s "")
  end.

(** White space stripped by [parseInt] (the ASCII part of the
    StrWhiteSpaceChar class: TAB, LF, VT, FF, CR, SP). *)
Definition isWhiteSpace (c : ascii) : bool :=
  let n := nat_of_ascii c in
  ((9 <=? n)%nat && (n <=? 13)%nat) || (n =? 32)%nat.

Fixpoint trimStart (s : string) : string :=
  match s with
  | String c s' => if isWhiteSpace c then trimStart s' else s
  | EmptyString => s
  end.

(** Value of a character as a digit, for radices up to 36. *)
Definition digitValue (c : ascii) : option Z :=
  let n := Z.of_nat (nat_of_ascii c) in
  if (48 <=? n) && (n <=? 57) then Some (n - 48)
  else if (97 <=? n) && (n <=? 122) then Some (n - 87)
  else if (65 <=? n) && (n <=? 90) then Some (n - 55)
  else None.

(** The longest prefix of radix-[R] digits, as a number; [acc] is [None]
    until a first digit was read. *)
Fixpoint digitsPrefix (R : Z) (s : string) (acc : option Z) : option Z :=
  match s with
  | String c s' =>
      match digitValue c with
      | Some d =>
          if d <? R then digitsPrefix R s' (Some (R * default 0 acc + d))
          else acc
      | None => acc
      end
  | EmptyString => acc
  end.

Definition stripSign (s : string) : bool * string :=
  match s with
  | String "-" s' => (true, s')
  | String "+" s' => (false, s')
  | _ => (false, s)
  end.

Definition stripHexPrefix (s : string) : Z * string :=
  match s with
  | String "0" (String "x" s') => (16, s')
  | String "0" (String "X" s') => (16, s')
  | _ => (10, s)
  end.

(** [parseInt(s)] with no radix argument.  [None] is NaN.  The result
    is the exact integer; the rounding of a double above 2^53 is not
    modelled. *)
Definition parseIntStr (s : string) : option Z :=
  let '(neg, s1) := stripSign (trimStart s) in
  let '(R, s2) := stripHexPrefix s1 in
  match digitsPrefix R s2 None with
  | Some m => Some (if neg then - m else m)
  | None => None
  end.

(** [parseInt(x)] of a query parameter: a missing parameter is
    [undefined], whose string form has no digit. *)
Definition parseInt (x : option string) : option Z :=
  match x with
  | Some s => parseIntStr s
  | None => None
  end.

(** [n || d] for a number: NaN and 0 are falsy. *)
Definition orElse (n : option Z) (d : Z) : Z :=
  match n with
  | Some 0 => d
  | Some m => m
  | None => d
  end.

(** [Math.ceil(a / b)] for integers [a] and [b <> 0], computed exactly. *)
Definition ceilDiv (a b : Z) : Z := - ((- a) / b).

End JS.
Export JS.

(** ** Library behaviour that depends on the installed versions *)

(** Identifiers of documents and users, in their 24-digit hexadecimal
    string form. *)
Definition ObjectId : Type := string.

(** Four library functions are regular-expression or parser heavy and
    differ between releases; the development is parametric in them.
    - [castObjectId]: Mongoose's cast of a route parameter to an
      [ObjectId] in a query; [None] is a CastError;
    - [isMongoId], [isISO8601]: the validator.js predicates behind the
      chain methods of the same names;
    - [dateParse]: [Date.parse] of a string, in milliseconds since the
      epoch; [None] is an invalid date. *)
Class Platform : Type := {
  castObjectId : string → option ObjectId;
  isMongoId : string → bool;
  isISO8601 : string → bool;
  dateParse : string → option Z
}.

(** ** Requests and responses *)

(** An entry of [errors.array()]. *)
Record FieldError : Type := { err_param : string; err_msg : string }.

#[global] Instance FieldError_eq_dec : EqDecision FieldError.
Proof. solve_decision. Defined.

(** The parts of an Express request the handlers read: [req.query]
    (each parameter given once, so a string), [req.params.id],
    [req.body], [req.user._id] as set by the authentication middleware,
    and the validation errors the route's chains attached to the
    request. *)
Record Request : Type := {
  req_query : gmap string string;
  req_params_id : string;
  req_body : gmap string JSON;
  req_user : ObjectId;
  req_errors : list FieldError
}.

(** ** express-validator *)

Module Validator.

(** The string a standard validator is run on.  [None] is
    [undefined]. *)
Definition toString (v : option JSON) : string :=
  match v with
  | None | Some JNull => ""
  | Some (JBool true) => "true"
  | Some (JBool false) => "false"
  | Some (JNum n) => showZ n
  | Some (JStr s) => s
  end.

Inductive Location : Type := InBody | InParam.

Inductive Check : Type :=
| NotEmpty
| IsIn (values : list string)
| IsISO8601
| IsBoolean
| IsMongoId.

(** [body(f)] or [param(f)], followed by [.optional()] or not, followed
    by validators, each with its [.withMessage]. *)
Record Chain : Type := {
  location : Location;
  field : string;
  isOptional : bool;
  checks : list (Check * string)
}.

Definition body (f : string) : Chain :=
  {| location := InBody; field := f; isOptional := false; checks := [] |}.
Definition param (f : string) : Chain :=
  {| location := InParam; field := f; isOptional := false; checks := [] |}.
Definition optional (c : Chain) : Chain :=
  {| location := location c; field := field c; isOptional := true;
     checks := checks c |}.
Definition check (k : Check) (m : string) (c : Chain) : Chain :=
  {| location := location c; field := field c; isOptional := isOptional c;
     checks := checks c ++ [(k, m)] |}.

Section Run.
Context `{Platform}.

Definition runCheck (k : Check) (s : string) : bool :=
  match k with
  | NotEmpty => negb (String.eqb s "")
  | IsIn values => bool_decide (s ∈ values)
  | IsISO8601 => isISO8601 s
  | IsBoolean => bool_decide (s ∈ ["true"; "false"; "1"; "0"])
  | IsMongoId => isMongoId s
  end.

Definition fieldValue (c : Chain) (req : Request) : option JSON :=
  match location c with
  | InBody => req_body req !! field c
  | InParam =>
      if String.eqb (field c) "id" then Some (JStr (req_params_id req))
      else None
  end.

(** [.optional()] with no argument skips the chain only for a value
    that is [undefined]; [null], the empty string and other falsy
    values are validated. *)
Definition runChain (c : Chain) (req : Request) : list FieldError :=
  let v := fieldValue c req in
  if isOptional c && bool_decide (v = None) then []
  else
    omap (λ km : Check * string,
            if runCheck km.1 (toString v) then None
            else Some {| err_param := field c; err_msg := km.2 |})
         (checks c).

(** Running the chains of a route before its handler: the errors
    of the request are those the chains of its route found. *)
Definition validate (chains : list Chain) (req : Request) : Request :=
  {| req_query := req_query req;
     req_params_id := req_params_id req;
     req_body := req_body req;
     req_user := req_user req;
     req_errors := mbind (λ c, runChain c req) chains |}.
End Run.

(** [validationResult(req)]. *)
Definition validationResult (req : Request) : list FieldError :=
  req_errors req.

End Validator.
Export Validator.

(** ** The Todo model and the Mongoose operations the handlers call *)

Module Model.

Inductive Priority : Type := Low | Medium | High.

#[global] Instance Priority_eq_dec : EqDecision Priority.
Proof. solve_decision. Defined.

Definition priorityName (p : Priority) : string :=
  match p with Low => "low" | Medium => "medium" | High => "high" end.

Definition priorityOfName (s : string) : option Priority :=
  if String.eqb s "low" then Some Low
  else if String.eqb s "medium" then Some Medium
  else if String.eqb s "high" then Some High
  else None.

(** Modelled from the spec: [models/Todo.js], the schema of a stored
    task.  The spec's data model gives a title (required, at most 100
    characters), an optional description (at most 500 characters), a
    completion flag (default false), a priority among low, medium and
    high (default medium), an optional due date, the owning user and
    the creation and update timestamps.  Dates are milliseconds since
    the epoch; [None] is an absent or null field. *)
Record Todo : Type := {
  _id : ObjectId;
  title : string;
  description : option string;
  completed : bool;
  priority : Priority;
  dueDate : option Z;
  user : ObjectId;
  createdAt : Z;
  updatedAt : Z
}.

#[global] Instance Todo_eq_dec : EqDecision Todo.
Proof. solve_decision. Defined.

(** The collection, in insertion order. *)
Definition Store : Type := list Todo.

(** What a rejected store call throws; the handlers report it as
    [error.message]. *)
Inductive StoreError : Type :=
| CastError (path : string)
| ValidationError (paths : list string)
| DuplicateKey
| NegativeSkip.

#[global] Instance StoreError_eq_dec : EqDecision StoreError.
Proof. solve_decision. Defined.

(** A store call either throws or returns. *)
Definition Result (A : Type) : Type := StoreError + A.

Definition bind {A B : Type} (r : Result A) (k : A → Result B) : Result B :=
  match r with
  | inl e => inl e
  | inr a => k a
  end.

(** A query filter object: [_id] as the string the caller supplied,
    [user], and the optional [completed] and [priority] constraints. *)
Record Filter : Type := {
  f_id : option string;
  f_user : ObjectId;
  f_completed : option bool;
  f_priority : option string
}.

Definition holds {A : Type} (c : option A) (p : A → bool) : bool :=
  match c with
  | Some a => p a
  | None => true
  end.

(** Whether a document satisfies a filter whose [_id] was cast to
    [oid]. *)
Definition matches (oid : option ObjectId) (f : Filter) (t : Todo) : bool :=
  holds oid (λ i, bool_decide (_id t = i))
  && bool_decide (user t = f_user f)
  && holds (f_completed f) (λ c, bool_decide (completed t = c))
  && holds (f_priority f) (λ p, bool_decide (priorityName (priority t) = p)).

(** [createdAt: -1]: a document may precede another when it is not
    older. *)
Definition newerFirst (t1 t2 : Todo) : Prop := createdAt t2 ≤ createdAt t1.

#[global] Instance newerFirst_dec : RelDecision newerFirst.
Proof. intros t1 t2. unfold newerFirst. apply _. Defined.

(** [.sort({ createdAt: -1 })], for one query.  MongoDB leaves the
    order of documents with equal keys open, query by query; this is
    one order it may return, a merge sort of the insertion order.
    Where a property depends on how equal keys are ordered, the handler
    is taken with the order of the query as a parameter
    ([getAllTodosBy]). *)
Definition sort (l : list Todo) : list Todo := merge_sort newerFirst l.

(** [.skip(n)]: the server rejects a negative value. *)
Definition skip (n : Z) (l : list Todo) : Result (list Todo) :=
  if n <? 0 then inl NegativeSkip else inr (drop (Z.to_nat n) l).

(** [.limit(n)]: zero is no limit, a negative value limits to its
    absolute value (the single-batch cut of a negative limit is not
    modelled). *)
Definition limit (n : Z) (l : list Todo) : list Todo :=
  if n =? 0 then l else take (Z.to_nat (Z.abs n)) l.

Section Queries.
Context `{Platform}.

Definition castId (f : Filter) : Result (option ObjectId) :=
  match f_id f with
  | None => inr None
  | Some raw =>
      match castObjectId raw with
      | Some oid => inr (Some oid)
      | None => inl (CastError "_id")
      end
  end.

(** [Todo.find(filter)], in insertion order. *)
Definition find (f : Filter) (db : Store) : Result (list Todo) :=
  bind (castId f) (λ oid, inr (List.filter (matches oid f) db)).

(** [Todo.countDocuments(filter)]. *)
Definition countDocuments (f : Filter) (db : Store) : Result Z :=
  bind (find f db) (λ l, inr (Z.of_nat (length l))).

(** [Todo.findOne(filter)]: the first match, [None] for [null]. *)
Definition findOne (f : Filter) (db : Store) : Result (option Todo) :=
  bind (find f db) (λ l, inr (head l)).

(** Removing the first document a predicate selects. *)
Fixpoint removeFirst (p : Todo → bool) (db : Store) : Store :=
  match db with
  | [] => []
  | t :: db' => if p t then db' else t :: removeFirst p db'
  end.

(** [Todo.findOneAndDelete(filter)]: the removed document, if any,
    and the collection without it. *)
Definition findOneAndDelete (f : Filter) (db : Store)
  : Result (option Todo * Store) :=
  bind (castId f) (λ oid,
    inr (head (List.filter (matches oid f) db),
         removeFirst (matches oid f) db)).
End Queries.

End Model.
Export Model.

(** ** Documents in memory: assignment, casting and [save] *)

Module Document.

(** Mongoose's casts of a scalar to the schema types.  [castString]
    returns [None] for [null]; [castBoolean] returns [None] where
    Mongoose has no boolean for the value. *)
Definition castString (v : JSON) : option string :=
  match v with
  | JNull => None
  | JBool true => Some "true"
  | JBool false => Some "false"
  | JNum n => Some (showZ n)
  | JStr s => Some s
  end.

Definition castBoolean (v : JSON) : option bool :=
  match v with
  | JBool b => Some b
  | JNum 1 => Some true
  | JNum 0 => Some false
  | JStr s =>
      if bool_decide (s ∈ ["true"; "1"; "yes"]) then Some true
      else if bool_decide (s ∈ ["false"; "0"; "no"]) then Some false
      else None
  | _ => None
  end.

(** [new Date(v)]: a string is parsed, a number is a time value, valid
    up to 8.64e15 milliseconds either side of the epoch.  [None] is an
    invalid date. *)
Definition newDate `{Platform} (v : JSON) : option Z :=
  match v with
  | JStr s => dateParse s
  | JNum n => if Z.abs n <=? 8640000000000000 then Some n else None
  | JBool b => Some (if b then 1 else 0)
  | JNull => Some 0
  end.

(** A document being built or edited: its current field values and the
    paths whose last assignment could not be cast.  Both are examined
    only by [save]. *)
Record Draft : Type := { doc : Todo; invalid : list string }.

Definition edit (f : Todo → Todo) (d : Draft) : Draft :=
  {| doc := f (doc d); invalid := invalid d |}.

Definition invalidate (path : string) (d : Draft) : Draft :=
  {| doc := doc d; invalid := invalid d ++ [path] |}.

Definition withTitle (s : string) (t : Todo) : Todo :=
  {| _id := _id t; title := s; description := description t;
     completed := completed t; priority := priority t;
     dueDate := dueDate t; user := user t;
     createdAt := createdAt t; updatedAt := updatedAt t |}.

Definition withDescription (s : option string) (t : Todo) : Todo :=
  {| _id := _id t; title := title t; description := s;
     completed := completed t; priority := priority t;
     dueDate := dueDate t; user := user t;
     createdAt := createdAt t; updatedAt := updatedAt t |}.

Definition withCompleted (b : bool) (t : Todo) : Todo :=
  {| _id := _id t; title := title t; description := description t;
     completed := b; priority := priority t;
     dueDate := dueDate t; user := user t;
     createdAt := createdAt t; updatedAt := updatedAt t |}.

Definition withPriority (p : Priority) (t : Todo) : Todo :=
  {| _id := _id t; title := title t; description := description t;
     completed := completed t; priority := p;
     dueDate := dueDate t; user := user t;
     createdAt := createdAt t; updatedAt := updatedAt t |}.

Definition withDueDate (d : option Z) (t : Todo) : Todo :=
  {| _id := _id t; title := title t; description := description t;
     completed := completed t; priority := priority t;
     dueDate := d; user := user t;
     createdAt := createdAt t; updatedAt := updatedAt t |}.

Definition withTimestamps (c u : Z) (t : Todo) : Todo :=
  {| _id := _id t; title := title t; description := description t;
     completed := completed t; priority := priority t;
     dueDate := dueDate t; user := user t;
     createdAt := c; updatedAt := u |}.

(** [doc.title = v].  A title is required, so [null] leaves the path
    invalid. *)
Definition setTitle (v : JSON) (d : Draft) : Draft :=
  match castString v with
  | Some s => edit (withTitle s) d
  | None => invalidate "title" d
  end.

(** [doc.description = v]; [null] clears the field. *)
Definition setDescription (v : JSON) (d : Draft) : Draft :=
  edit (withDescription (castString v)) d.

(** [doc.completed = v]; the flag has no null value in the model. *)
Definition setCompleted (v : JSON) (d : Draft) : Draft :=
  match castBoolean v with
  | Some b => edit (withCompleted b) d
  | None => invalidate "completed" d
  end.

(** [doc.priority = v]: a string outside the enumeration, or [null],
    leaves the path invalid. *)
Definition setPriority (v : JSON) (d : Draft) : Draft :=
  match castString v ≫= priorityOfName with
  | Some p => edit (withPriority p) d
  | None => invalidate "priority" d
  end.

(** [doc.dueDate = x] for [x] a [Date] or [null]: [Some None] is
    [null], [None] an invalid date. *)
Definition setDueDate (x : option (option Z)) (d : Draft) : Draft :=
  match x with
  | Some date => edit (withDueDate date) d
  | None => invalidate "dueDate" d
  end.

(** [String.length], on ASCII text. *)
Definition strlen (s : string) : Z := Z.of_nat (String.length s).

(** Modelled from the spec: the validators of the schema in
    [models/Todo.js], as the spec's data model gives them (title
    required and at most 100 characters, description at most 500).  The
    paths [save] rejects are those left invalid by an assignment, a
    missing title, and a modified title or description over its length
    limit. *)
Definition validationPaths (modified : list string) (d : Draft) : list string :=
  invalid d
  ++ (if String.eqb (title (doc d)) "" then ["title"] else [])
  ++ (if bool_decide ("title" ∈ modified) && (100 <? strlen (title (doc d)))
      then ["title"] else [])
  ++ (if bool_decide ("description" ∈ modified)
         && (500 <? strlen (default "" (description (doc d))))
      then ["description"] else []).

Definition allPaths : list string :=
  ["title"; "description"; "completed"; "priority"; "dueDate"; "user"].

(** The paths on which an edited document differs from the stored
    one. *)
Definition modifiedPaths (old new : Todo) : list string :=
  (if bool_decide (title old = title new) then [] else ["title"])
  ++ (if bool_decide (description old = description new) then []
      else ["description"])
  ++ (if bool_decide (completed old = completed new) then []
      else ["completed"])
  ++ (if bool_decide (priority old = priority new) then []
      else ["priority"])
  ++ (if bool_decide (dueDate old = dueDate new) then [] else ["dueDate"]).

(** [save()] of a new document at time [now]: validation, then an
    insert, which the unique index on [_id] can reject. *)
Definition saveNew (now : Z) (d : Draft) (db : Store) : Result (Todo * Store) :=
  match validationPaths allPaths d with
  | [] =>
      if bool_decide (_id (doc d) ∈ _id <$> db) then inl DuplicateKey
      else
        let t := withTimestamps now now (doc d) in
        inr (t, db ++ [t])
  | paths => inl (ValidationError paths)
  end.

(** Replacing the first document with the identifier of [new]. *)
Fixpoint replaceFirst (new : Todo) (db : Store) : Store :=
  match db with
  | [] => []
  | t :: db' =>
      if bool_decide (_id t = _id new) then new :: db'
      else t :: replaceFirst new db'
  end.

(** [save()] of a document loaded as [old] and edited into [d]:
    validation of the modified paths, a new [updatedAt] when something
    was modified, and the write. *)
Definition saveExisting (now : Z) (old : Todo) (d : Draft) (db : Store)
  : Result (Todo * Store) :=
  let modified := modifiedPaths old (doc d) in
  match validationPaths modified d with
  | [] =>
      let t :=
        match modified with
        | [] => doc d
        | _ => withTimestamps (createdAt old) now (doc d)
        end in
      inr (t, replaceFirst t db)
  | paths => inl (ValidationError paths)
  end.

End Document.
Export Document.

(** ** The response envelope *)

Inductive Data : Type :=
| DataTodo (todo : Todo)
| DataList (todos : list Todo) (total page limit pages : Z).

(** [res.status(s).json({ success, message, data, error, errors })]; a key
    the handler leaves out is [None] or the empty list. *)
Record Response : Type := {
  status : Z;
  success : bool;
  message : string;
  data : option Data;
  error : option StoreError;
  errors : list FieldError
}.

Definition ok (s : Z) (m : string) (d : option Data) : Response :=
  {| status := s; success := true; message := m; data := d;
     error := None; errors := [] |}.

Definition validationFailed (es : list FieldError) : Response :=
  {| status := 400; success := false; message := "Validation failed";
     data := None; error := None; errors := es |}.

Definition notFound : Response :=
  {| status := 404; success := false; message := "Todo not found";
     data := None; error := None; errors := [] |}.

Definition serverError (m : string) (e : StoreError) : Response :=
  {| status := 500; success := false; message := m;
     data := None; error := Some e; errors := [] |}.

(** ** controllers/todoController.js *)

Section Controller.
Context `{Platform}.

(** The filter object [getAllTodos] builds from the query string. *)
Definition listFilter (req : Request) : Filter :=
  {| f_id := None;
     f_user := req_user req;
     f_completed := (λ c, String.eqb c "true") <$> req_query req !! "completed";
     f_priority :=
       match req_query req !! "priority" with
       | Some p => if truthy (JStr p) then Some p else None
       | None => None
       end |}.

Definition getAllTodos (db : Store) (req : Request) : Response * Store :=
  let page := orElse (parseInt (req_query req !! "page")) 1 in
  let limit := orElse (parseInt (req_query req !! "limit")) 10 in
  let skip := (page - 1) * limit in
  let filter := listFilter req in
  match
    bind (find filter db) (λ found,
    bind (Model.skip skip (sort found)) (λ rest,
    let todos := Model.limit limit rest in
    bind (countDocuments filter db) (λ total,
    inr (todos, total))))
  with
  | inr (todos, total) =>
      (ok 200 "Todos retrieved successfully"
          (Some (DataList todos total page limit (ceilDiv total limit))),
       db)
  | inl e => (serverError "Server error while fetching todos" e, db)
  end.

(** The filter [{ _id: req.params.id, user: req.user._id }]. *)
Definition ownedFilter (req : Request) : Filter :=
  {| f_id := Some (req_params_id req);
     f_user := req_user req;
     f_completed := None;
     f_priority := None |}.

Definition getTodoById (db : Store) (req : Request) : Response * Store :=
  match findOne (ownedFilter req) db with
  | inr None => (notFound, db)
  | inr (Some todo) =>
      (ok 200 "Todo retrieved successfully" (Some (DataTodo todo)), db)
  | inl e => (serverError "Server error while fetching todo" e, db)
  end.

(** Modelled from the spec: the defaults of the schema in
    [models/Todo.js] (not completed, priority medium).  This is
    [new Todo({ ... })] before any key is applied: the identifier the
    driver generated, the owner, and the defaults. *)
Definition blank (newId owner : ObjectId) : Draft :=
  {| doc := {| _id := newId; title := ""; description := None;
               completed := false; priority := Medium; dueDate := None;
               user := owner; createdAt := 0; updatedAt := 0 |};
     invalid := [] |}.

(** A key of the object given to the constructor, or an assignment
    guarded by [x !== undefined]. *)
Definition assign (x : option JSON) (set : JSON → Draft → Draft) (d : Draft)
  : Draft :=
  match x with
  | Some v => set v d
  | None => d
  end.

(** [priority || 'medium']. *)
Definition priorityOrMedium (x : option JSON) : JSON :=
  match x with
  | Some v => if truthy v then v else JStr "medium"
  | None => JStr "medium"
  end.

(** [dueDate ? new Date(dueDate) : undefined] in [createTodo]. *)
Definition dueDateOnCreate (v : JSON) (d : Draft) : Draft :=
  if truthy v then setDueDate (Some <$> newDate v) d else d.

(** [todo.dueDate = dueDate ? new Date(dueDate) : null] in
    [updateTodo]. *)
Definition dueDateOnUpdate (v : JSON) (d : Draft) : Draft :=
  if truthy v then setDueDate (Some <$> newDate v) d
  else setDueDate (Some None) d.

(** [newId] is the identifier generated for the new document and [now]
    the clock at [save]. *)
Definition createTodo (db : Store) (newId : ObjectId) (now : Z) (req : Request)
  : Response * Store :=
  match validationResult req with
  | (_ :: _) as errs => (validationFailed errs, db)
  | [] =>
      let title := req_body req !! "title" in
      let description := req_body req !! "description" in
      let priority := req_body req !! "priority" in
      let dueDate := req_body req !! "dueDate" in
      let todo :=
        assign dueDate dueDateOnCreate
          (setPriority (priorityOrMedium priority)
             (assign description setDescription
                (assign title setTitle (blank newId (req_user req))))) in
      match saveNew now todo db with
      | inr (saved, db') =>
          (ok 201 "Todo created successfully" (Some (DataTodo saved)), db')
      | inl e => (serverError "Server error while creating todo" e, db)
      end
  end.

Definition updateTodo (db : Store) (now : Z) (req : Request)
  : Response * Store :=
  match validationResult req with
  | (_ :: _) as errs => (validationFailed errs, db)
  | [] =>
      let title := req_body req !! "title" in
      let description := req_body req !! "description" in
      let completed := req_body req !! "completed" in
      let priority := req_body req !! "priority" in
      let dueDate := req_body req !! "dueDate" in
      match findOne (ownedFilter req) db with
      | inr None => (notFound, db)
      | inr (Some todo) =>
          let edited :=
            assign dueDate dueDateOnUpdate
              (assign priority setPriority
                 (assign completed setCompleted
                    (assign description setDescription
                       (assign title setTitle
                          {| doc := todo; invalid := [] |})))) in
          match saveExisting now todo edited db with
          | inr (saved, db') =>
              (ok 200 "Todo updated successfully" (Some (DataTodo saved)),
               db')
          | inl e => (serverError "Server error while updating todo" e, db)
          end
      | inl e => (serverError "Server error while updating todo" e, db)
      end
  end.

Definition deleteTodo (db : Store) (req : Request) : Response * Store :=
  match findOneAndDelete (ownedFilter req) db with
  | inr (None, _) => (notFound, db)
  | inr (Some _, db') => (ok 200 "Todo deleted successfully" None, db')
  | inl e => (serverError "Server error while deleting todo" e, db)
  end.

End Controller.

(** ** routes/todos.js *)

Definition priorities : list string := ["low"; "medium"; "high"].

Definition createTodoValidation : list Chain :=
  [ check NotEmpty "Title is required" (body "title");
    optional (body "description");
    check (IsIn priorities) "Priority must be low, medium, or high"
      (optional (body "priority"));
    check IsISO8601 "Due date must be a valid date"
      (optional (body "dueDate")) ].

Definition updateTodoValidation : list Chain :=
  [ check IsMongoId "Invalid todo ID" (param "id");
    optional (body "title");
    optional (body "description");
    check IsBoolean "Completed must be a boolean value"
      (optional (body "completed"));
    check (IsIn priorities) "Priority must be low, medium, or high"
      (optional (body "priority"));
    check IsISO8601 "Due date must be a valid date"
      (optional (body "dueDate")) ].

Definition todoIdValidation : list Chain :=
  [ check IsMongoId "Invalid todo ID" (param "id") ].

(** The routes, for a request the authentication middleware let
    through: the chains of the route run, then the handler. *)
Section Routes.
Context `{Platform}.

Definition GET_todos (db : Store) (req : Request) : Response * Store :=
  getAllTodos db req.

Definition GET_todo (db : Store) (req : Request) : Response * Store :=
  getTodoById db (validate todoIdValidation req).

Definition POST_todos (db : Store) (newId : ObjectId) (now : Z) (req : Request)
  : Response * Store :=
  createTodo db newId now (validate createTodoValidation req).

Definition PUT_todo (db : Store) (now : Z) (req : Request)
  : Response * Store :=
  updateTodo db now (validate updateTodoValidation req).

Definition DELETE_todo (db : Store) (req : Request) : Response * Store :=
  deleteTodo db (validate todoIdValidation req).
End Routes.

(** ** A concrete platform, for running the model

    Identifiers are the strings of 24 hexadecimal digits, which every
    release of the libraries accepts and which are stored in lower case;
    dates are the calendar form [YYYY-MM-DD], read as midnight UTC. *)

Module Reference.

Definition isHexDigit (c : ascii) : bool :=
  match digitValue c with
  | Some d => d <? 16
  | None => false
  end.

Definition isDigit (c : ascii) : bool :=
  match digitValue c with
  | Some d => d <? 10
  | None => false
  end.

Definition chars (s : string) : list ascii := list_ascii_of_string s.

Definition isHex24 (s : string) : bool :=
  (String.length s =? 24)%nat && forallb isHexDigit (chars s).

Definition lower (c : ascii) : ascii :=
  let n := nat_of_ascii c in
  if (65 <=? n)%nat && (n <=? 90)%nat then ascii_of_nat (n + 32) else c.

Definition toLowerCase (s : string) : string :=
  string_of_list_ascii (lower <$> chars s).

(** Days from 1970-01-01 to a date of the proleptic Gregorian
    calendar. *)
Definition daysFromCivil (y m d : Z) : Z :=
  let y' := if m <=? 2 then y - 1 else y in
  let era := y' / 400 in
  let yoe := y' - era * 400 in
  let doy := (153 * (if 2 <? m then m - 3 else m + 9) + 2) / 5 + d - 1 in
  let doe := yoe * 365 + yoe / 4 - yoe / 100 + doy in
  era * 146097 + doe - 719468.

Definition calendarDate (s : string) : option (Z * Z * Z) :=
  match chars s with
  | [y1; y2; y3; y4; "-"%char; m1; m2; "-"%char; d1; d2] =>
      if forallb isDigit [y1; y2; y3; y4; m1; m2; d1; d2] then
        let num l := default 0 (digitsPrefix 10 (string_of_list_ascii l) None) in
        let '(y, m, d) := (num [y1; y2; y3; y4], num [m1; m2], num [d1; d2]) in
        if (1 <=? m) && (m <=? 12) && (1 <=? d) && (d <=? 31)
        then Some (y, m, d) else None
      else None
  | _ => None
  end.

Definition platform : Platform :=
  {| castObjectId s := if isHex24 s then Some (toLowerCase s) else None;
     isMongoId := isHex24;
     isISO8601 s := bool_decide (is_Some (calendarDate s));
     dateParse s :=
       (λ '(y, m, d), daysFromCivil y m d * 86400000) <$> calendarDate s |}.

End Reference.

(** ** Sample data *)

Module Sample.

Definition alice : ObjectId := "60f7b3b3b3b3b3b3b3b3b3a1".
Definition bob : ObjectId := "60f7b3b3b3b3b3b3b3b3b3b2".

Definition id1 : ObjectId := "65a000000000000000000001".
Definition id2 : ObjectId := "65a000000000000000000002".
Definition id3 : ObjectId := "65a000000000000000000003".
Definition id4 : ObjectId := "65a000000000000000000004".

Definition todo (i : ObjectId) (owner : ObjectId) (t : string) (c : bool)
    (p : Priority) (due : option Z) (at_ : Z) : Todo :=
  {| _id := i; title := t; description := None; completed := c;
     priority := p; dueDate := due; user := owner;
     createdAt := at_; updatedAt := at_ |}.

Definition milk : Todo := todo id1 alice "buy milk" true Medium None 1000.
Definition docs : Todo :=
  todo id2 alice "write docs" true High (Some 1705708800000) 2000.
Definition taxes : Todo := todo id3 bob "file taxes" false High None 3000.
Definition walk : Todo := todo id4 alice "walk" true Low None 4000.

Definition db : Store := [milk; docs; taxes; walk].

(** A request of [caller] with the given route parameter, query string
    and body. *)
Definition request (caller : ObjectId) (id : string)
    (q : list (string * string)) (b : list (string * JSON)) : Request :=
  {| req_query := list_to_map q; req_params_id := id;
     req_body := list_to_map b; req_user := caller; req_errors := [] |}.

End Sample.

(** ** Vocabulary of the properties *)

(** The task a response carries, if any. *)
Definition todoOf (r : Response) : option Todo :=
  match data r with
  | Some (DataTodo t) => Some t
  | _ => None
  end.

(** The page of tasks a response carries; none outside a list
    response. *)
Definition todosOf (r : Response) : list Todo :=
  match data r with
  | Some (DataList todos _ _ _ _) => todos
  | _ => []
  end.

(** The stored tasks that do not belong to [caller], in store order. *)
Definition others (caller : ObjectId) (db : Store) : Store :=
  List.filter (λ t, negb (bool_decide (user t = caller))) db.

(** The unique index on [_id]. *)
Definition uniqueIds (db : Store) : Prop := NoDup (_id <$> db).

(** The five guarded assignments of [updateTodo], lines 391 to 395, for
    the five values read from the body. *)
Definition updateAssignments `{Platform} (ti de co pr du : option JSON)
    (d : Draft) : Draft :=
  assign du dueDateOnUpdate
    (assign pr setPriority
       (assign co setCompleted
          (assign de setDescription (assign ti setTitle d)))).

(** The document [updateTodo] hands to [save]: the one it found, after
    the assignments for the values of the request body. *)
Definition edited `{Platform} (req : Request) (old : Todo) : Draft :=
  updateAssignments (req_body req !! "title") (req_body req !! "description")
    (req_body req !! "completed") (req_body req !! "priority")
    (req_body req !! "dueDate") {| doc := old; invalid := [] |}.

(** The document [createTodo] hands to [save]: the object given to the
    constructor, lines 288 to 294, for the four values read from the
    body. *)
Definition created `{Platform} (req : Request) (newId : ObjectId) : Draft :=
  assign (req_body req !! "dueDate") dueDateOnCreate
    (setPriority (priorityOrMedium (req_body req !! "priority"))
       (assign (req_body req !! "description") setDescription
          (assign (req_body req !! "title") setTitle
             (blank newId (req_user req))))).

(** The page and the page size [getAllTodos] works with. *)
Definition effectivePage (req : Request) : Z :=
  orElse (parseInt (req_query req !! "page")) 1.

Definition effectiveLimit (req : Request) : Z :=
  orElse (parseInt (req_query req !! "limit")) 10.

(** The tasks a filter selects, before sorting and paging. *)
Definition selected (f : Filter) (db : Store) : list Todo :=
  List.filter (matches None f) db.

(** [n] is the ceiling of the quotient [a / b], for [b <> 0]: the
    integer with [n - 1 < a / b <= n]. *)
Definition ceilingOf (a b n : Z) : Prop :=
  (0 < b → (n - 1) * b < a ≤ n * b) ∧ (b < 0 → n * b ≤ a < (n - 1) * b).

(** The envelope of a page of the list. *)
Definition listResponse (todos : list Todo) (total page limit pages : Z)
  : Response :=
  ok 200 "Todos retrieved successfully"
     (Some (DataList todos total page limit pages)).

(** An order in which the store may return the result of a query
    sorted by [createdAt: -1]: the same documents, none older before a
    newer one.  Documents created at the same time may come in any
    order. *)
Definition resultOrder (order : list Todo → list Todo) : Prop :=
  ∀ l, order l ≡ₚ l ∧ StronglySorted newerFirst (order l).

(** [getAllTodos], lines 128 to 171, with the order in which the store
    returns the sorted result of this query as a parameter. *)
Definition getAllTodosBy `{Platform} (order : list Todo → list Todo)
    (db : Store) (req : Request) : Response * Store :=
  let page := orElse (parseInt (req_query req !! "page")) 1 in
  let limit := orElse (parseInt (req_query req !! "limit")) 10 in
  let skip := (page - 1) * limit in
  let filter := listFilter req in
  match
    bind (find filter db) (λ found,
    bind (Model.skip skip (order found)) (λ rest,
    let todos := Model.limit limit rest in
    bind (countDocuments filter db) (λ total,
    inr (todos, total))))
  with
  | inr (todos, total) =>
      (ok 200 "Todos retrieved successfully"
          (Some (DataList todos total page limit (ceilDiv total limit))),
       db)
  | inl e => (serverError "Server error while fetching todos" e, db)
  end.

(** Three tasks of one owner created in the same millisecond, and a
    second order the store may return them in. *)
Module Ties.

Definition a : Todo := Sample.todo Sample.id1 Sample.alice "a" false Low None 1000.
Definition b : Todo := Sample.todo Sample.id2 Sample.alice "b" false Low None 1000.
Definition c : Todo := Sample.todo Sample.id3 Sample.alice "c" false Low None 1000.

Definition db : Store := [a; b; c].

(** The merge sort of the store read from its second document on. *)
Definition rotated (l : list Todo) : list Todo := sort (drop 1 l ++ take 1 l).

(** The request for page [k + 1], two tasks a page. *)
Definition page (k : nat) : Request :=
  Sample.request Sample.alice ""
    [("limit", "2"); ("page", showZ (Z.of_nat k + 1))] [].

(** The first query gets the one order, every later query the
    other. *)
Definition orders (k : nat) : list Todo → list Todo :=
  match k with
  | O => sort
  | S _ => rotated
  end.

End Ties.

(** A request without one of its query parameters. *)
Definition withoutQuery (k : string) (req : Request) : Request :=
  {| req_query := delete k (req_query req);
     req_params_id := req_params_id req;
     req_body := req_body req;
     req_user := req_user req;
     req_errors := req_errors req |}.

(** What identifies a stored task and never changes: its identifier,
    its owner and its creation time. *)
Definition identity (t : Todo) : ObjectId * ObjectId * Z :=
  (_id t, user t, createdAt t).

(** Whether a response is one of the two success envelopes. *)
Definition succeeded (r : Response) : bool :=
  (status r =? 200) || (status r =? 201).

(** The shape every answer of the handlers has: one of five statuses,
    [success] set on 200 and 201 only, an [error] detail on 500 only,
    field errors on 400 only, and data on success only. *)
Definition envelope (r : Response) : Prop :=
  status r ∈ [200; 201; 400; 404; 500]
  ∧ success r = succeeded r
  ∧ (is_Some (error r) ↔ status r = 500)
  ∧ (errors r ≠ [] ↔ status r = 400)
  ∧ (is_Some (data r) → success r = true).

(** ** routes/auth.js: the validation chains of signup and login *)

Module Auth.

(** The validators the two chains use.  [Matches] carries the
    recogniser of its regular expression. *)
Inductive Check : Type :=
| IsLength (min : nat) (max : option nat)
| Matches (accepts : string → bool)
| IsEmail
| NotEmpty.

(** [body(f)] followed by validators, each with its [.withMessage].
    The sanitizer [normalizeEmail] adds no error and comes after the
    only validator of its chain, so it is left out. *)
Record Chain : Type := { field : string; checks : list (Check * string) }.

(** A character of the class [[a-zA-Z0-9_]]. *)
Definition wordChar (c : ascii) : bool :=
  let n := nat_of_ascii c in
  ((48 <=? n) && (n <=? 57) || (65 <=? n) && (n <=? 90)
   || (97 <=? n) && (n <=? 122) || (n =? 95))%nat.

(** The regular expression [/^[a-zA-Z0-9_]+$/]. *)
Definition usernamePattern (s : string) : bool :=
  negb (String.eqb s "") && forallb wordChar (list_ascii_of_string s).

Definition signupValidation : list Chain :=
  [ {| field := "username";
       checks :=
         [ (IsLength 3 (Some 30%nat),
            "Username must be between 3 and 30 characters");
           (Matches usernamePattern,
            "Username can only contain letters, numbers, and underscores") ] |};
    {| field := "email";
       checks := [ (IsEmail, "Please provide a valid email") ] |};
    {| field := "password";
       checks :=
         [ (IsLength 6 None,
            "Password must be at least 6 characters long") ] |} ].

Definition loginValidation : list Chain :=
  [ {| field := "email";
       checks := [ (IsEmail, "Please provide a valid email") ] |};
    {| field := "password";
       checks := [ (NotEmpty, "Password is required") ] |} ].

Section Run.
(** validator.js's [isEmail], on which the chains depend. *)
Variable isEmail : string → bool.

(** [isLength] counts characters (ASCII text). *)
Definition runCheck (k : Check) (s : string) : bool :=
  match k with
  | IsLength min max =>
      (min <=? String.length s)%nat
      && match max with
         | Some m => (String.length s <=? m)%nat
         | None => true
         end
  | Matches accepts => accepts s
  | IsEmail => isEmail s
  | NotEmpty => negb (String.eqb s "")
  end.

(** Every validator of a chain runs on the string form of the field,
    and each one that fails leaves its own error. *)
Definition runChain (c : Chain) (b : gmap string JSON) : list FieldError :=
  omap (λ km : Check * string,
          if runCheck km.1 (toString (b !! field c)) then None
          else Some {| err_param := field c; err_msg := km.2 |})
       (checks c).

(** The errors the chains of a route leave for a request body. *)
Definition errorsOf (chains : list Chain) (b : gmap string JSON)
  : list FieldError :=
  mbind (λ c, runChain c b) chains.
End Run.

(** A stand-in for [isEmail] when running the model: something, an at
    sign, something. *)
Definition simpleEmail (s : string) : bool :=
  match index 0 "@" s with
  | Some (S i) => (S (S i) <? String.length s)%nat
  | _ => false
  end.

End Auth.

(** * Properties *)

(** ** The store operations *)

Section StoreFacts.
Context `{Platform}.

Lemma matches_user oid f t : matches oid f t = true → user t = f_user f.
Proof.
  unfold matches. rewrite !andb_true_iff, !bool_decide_eq_true. tauto.
Qed.

Lemma matches_id oid f t : matches (Some oid) f t = true → _id t = oid.
Proof.
  unfold matches. simpl. rewrite !andb_true_iff, !bool_decide_eq_true. tauto.
Qed.

Lemma matches_owned oid req t :
  matches (Some oid) (ownedFilter req) t = true
  ↔ _id t = oid ∧ user t = req_user req.
Proof.
  unfold matches. simpl.
  rewrite !andb_true_iff, !bool_decide_eq_true. tauto.
Qed.

Lemma head_filter_Some (p : Todo → bool) db t :
  head (List.filter p db) = Some t → t ∈ db ∧ p t = true.
Proof.
  induction db as [|x db IH]; simpl; [discriminate|].
  destruct (p x) eqn:Hx; simpl.
  - intros [= ->]. split; [left | done].
  - intros Hh. destruct (IH Hh). split; [by right | done].
Qed.

Lemma head_filter_None (p : Todo → bool) db :
  head (List.filter p db) = None ↔ ∀ t, t ∈ db → p t = false.
Proof.
  induction db as [|x db IH]; simpl.
  - split; [intros _ t Ht; inversion Ht | done].
  - destruct (p x) eqn:Hx; simpl.
    + split; [discriminate|]. intros Hall.
      rewrite Hall in Hx by left. discriminate.
    + rewrite IH. split.
      * intros Hall t Ht. inversion Ht; subst; auto.
      * intros Hall t Ht. apply Hall. by right.
Qed.

Lemma removeFirst_no_match (p : Todo → bool) db :
  (∀ t, t ∈ db → p t = false) → removeFirst p db = db.
Proof.
  induction db as [|x db IH]; simpl; [done|]. intros Hall.
  rewrite (Hall x) by left. f_equal. apply IH. intros t Ht.
  apply Hall. by right.
Qed.

Lemma others_removeFirst caller (p : Todo → bool) db :
  (∀ t, p t = true → user t = caller) →
  others caller (removeFirst p db) = others caller db.
Proof.
  intros Hp. induction db as [|x db IH]; simpl; [done|].
  destruct (p x) eqn:Hx; simpl.
  - by rewrite bool_decide_eq_true_2 by auto.
  - by rewrite IH.
Qed.

Lemma others_replaceFirst caller new db :
  user new = caller →
  (∀ t, t ∈ db → _id t = _id new → user t = caller) →
  others caller (replaceFirst new db) = others caller db.
Proof.
  intros Hnew. induction db as [|x db IH]; simpl; [done|]. intros Hall.
  case_bool_decide as Hid; simpl.
  - rewrite !bool_decide_eq_true_2; [done| |done]. apply Hall; [left | done].
  - rewrite IH; [done|]. intros t Ht. apply Hall. by right.
Qed.

Lemma elem_of_others caller db t :
  t ∈ others caller db ↔ t ∈ db ∧ user t ≠ caller.
Proof.
  unfold others. rewrite !list_elem_of_In, filter_In, negb_true_iff.
  by rewrite bool_decide_eq_false.
Qed.

Lemma uniqueIds_same_id db t1 t2 :
  uniqueIds db → t1 ∈ db → t2 ∈ db → _id t1 = _id t2 → t1 = t2.
Proof.
  unfold uniqueIds. induction db as [|x db IH]; simpl.
  - intros _ Ht1. inversion Ht1.
  - rewrite NoDup_cons. intros [Hx Hnd] Ht1 Ht2 Hid.
    apply elem_of_cons in Ht1 as [->|Ht1], Ht2 as [->|Ht2]; auto.
    + exfalso. apply Hx. rewrite Hid. by apply list_elem_of_fmap_2.
    + exfalso. apply Hx. rewrite <- Hid. by apply list_elem_of_fmap_2.
Qed.

(** The two outcomes of a lookup by identifier and owner. *)
Lemma findOne_owned db req :
  match castObjectId (req_params_id req) with
  | None => findOne (ownedFilter req) db = inl (CastError "_id")
  | Some oid =>
      ∃ found, findOne (ownedFilter req) db = inr found ∧
        match found with
        | Some t => t ∈ db ∧ _id t = oid ∧ user t = req_user req
        | None => ∀ t, t ∈ db → _id t = oid → user t ≠ req_user req
        end
  end.
Proof.
  unfold findOne, find, castId. simpl.
  destruct (castObjectId (req_params_id req)) as [oid|]; simpl; [|done].
  eexists. split; [done|].
  destruct (head _) as [t|] eqn:Hh.
  - apply head_filter_Some in Hh as [Hin Hm].
    apply matches_owned in Hm. tauto.
  - intros t Hin Hid Hu.
    rewrite head_filter_None in Hh. specialize (Hh t Hin).
    assert (matches (Some oid) (ownedFilter req) t = true) as Hm
      by by apply matches_owned.
    congruence.
Qed.

End StoreFacts.

(** ** Assignments touch one field *)

Section Assignments.
Context `{Platform}.

Ltac assignments :=
  unfold assign, dueDateOnUpdate, dueDateOnCreate, setTitle, setDescription,
    setCompleted, setPriority, setDueDate, edit, invalidate;
  repeat case_match; simplify_eq/=; try done.

Lemma updateAssignments_identity ti de co pr du d :
  let d' := updateAssignments ti de co pr du d in
  _id (doc d') = _id (doc d) ∧ user (doc d') = user (doc d)
  ∧ createdAt (doc d') = createdAt (doc d)
  ∧ updatedAt (doc d') = updatedAt (doc d).
Proof. unfold updateAssignments. destruct ti, de, co, pr, du; assignments. Qed.

Lemma updateAssignments_title de co pr du d :
  title (doc (updateAssignments None de co pr du d)) = title (doc d).
Proof. unfold updateAssignments. destruct de, co, pr, du; assignments. Qed.

Lemma updateAssignments_description ti co pr du d :
  description (doc (updateAssignments ti None co pr du d))
  = description (doc d).
Proof. unfold updateAssignments. destruct ti, co, pr, du; assignments. Qed.

Lemma updateAssignments_completed ti de pr du d :
  completed (doc (updateAssignments ti de None pr du d)) = completed (doc d).
Proof. unfold updateAssignments. destruct ti, de, pr, du; assignments. Qed.

Lemma updateAssignments_priority ti de co du d :
  priority (doc (updateAssignments ti de co None du d)) = priority (doc d).
Proof. unfold updateAssignments. destruct ti, de, co, du; assignments. Qed.

Lemma updateAssignments_dueDate ti de co pr d :
  dueDate (doc (updateAssignments ti de co pr None d)) = dueDate (doc d).
Proof. unfold updateAssignments. destruct ti, de, co, pr; assignments. Qed.

(** Stamping a saved document changes the timestamps only. *)
Lemma saveExisting_fields now old d db t db' :
  saveExisting now old d db = inr (t, db') →
  db' = replaceFirst t db
  ∧ _id t = _id (doc d) ∧ user t = user (doc d)
  ∧ title t = title (doc d) ∧ description t = description (doc d)
  ∧ completed t = completed (doc d) ∧ priority t = priority (doc d)
  ∧ dueDate t = dueDate (doc d)
  ∧ (createdAt (doc d) = createdAt old → createdAt t = createdAt old).
Proof.
  unfold saveExisting. repeat case_match; intros; simplify_eq/=; done.
Qed.

End Assignments.

(** ** The handlers, case by case *)

Section HandlerFacts.
Context `{Platform}.

(** [updateTodo] either leaves the store as it was and returns no
    task, or found a task of the caller and saved its edited form. *)
Lemma updateTodo_cases db now req :
  ((updateTodo db now req).2 = db
   ∧ todoOf (updateTodo db now req).1 = None
   ∧ status (updateTodo db now req).1 ≠ 200)
  ∨ ∃ old new,
      validationResult req = []
      ∧ findOne (ownedFilter req) db = inr (Some old)
      ∧ saveExisting now old (edited req old) db = inr (new, replaceFirst new db)
      ∧ updateTodo db now req
        = (ok 200 "Todo updated successfully" (Some (DataTodo new)),
           replaceFirst new db).
Proof.
  unfold updateTodo, edited, updateAssignments.
  destruct (validationResult req) as [|e es]; [|left; by simpl].
  destruct (findOne (ownedFilter req) db) as [e|[old|]];
    [left; by simpl | | left; by simpl].
  destruct (saveExisting now old _ db) as [e|[new db']] eqn:Hsave;
    [left; by simpl |].
  right. exists old, new.
  destruct (saveExisting_fields _ _ _ _ _ _ Hsave) as [-> _]. done.
Qed.

Lemma findOne_Some db req old :
  findOne (ownedFilter req) db = inr (Some old) →
  old ∈ db ∧ user old = req_user req
  ∧ castObjectId (req_params_id req) = Some (_id old).
Proof.
  intros Hf. pose proof (findOne_owned db req) as Hc.
  destruct (castObjectId (req_params_id req)) as [oid|]; [|congruence].
  destruct Hc as (found & Hf' & Hfound). rewrite Hf in Hf'.
  injection Hf' as <-. destruct Hfound as (? & <- & ?). done.
Qed.

Lemma getTodoById_returns db req t :
  todoOf (getTodoById db req).1 = Some t → t ∈ db ∧ user t = req_user req.
Proof.
  unfold getTodoById.
  destruct (findOne (ownedFilter req) db) as [e|[old|]] eqn:Hf;
    simpl; try discriminate.
  unfold todoOf. simpl. intros Heq. injection Heq as Heq. subst old.
  apply findOne_Some in Hf. tauto.
Qed.

Lemma getTodoById_store db req : (getTodoById db req).2 = db.
Proof. unfold getTodoById. by repeat case_match. Qed.

Lemma updateTodo_returns db now req t :
  todoOf (updateTodo db now req).1 = Some t → user t = req_user req.
Proof.
  destruct (updateTodo_cases db now req)
    as [(_ & Hnone & _)|(old & new & _ & Hf & Hsave & ->)]; [congruence|].
  simpl. intros [= <-].
  apply findOne_Some in Hf as (_ & <- & _).
  apply saveExisting_fields in Hsave as (_ & _ & -> & _).
  apply (updateAssignments_identity _ _ _ _ _ {| doc := old; invalid := [] |}).
Qed.

Lemma updateTodo_others db now req :
  uniqueIds db →
  others (req_user req) (updateTodo db now req).2 = others (req_user req) db.
Proof.
  intros Huniq.
  destruct (updateTodo_cases db now req)
    as [(-> & _)|(old & new & _ & Hf & Hsave & ->)]; [done|].
  simpl. apply findOne_Some in Hf as (Hin & Hu & _).
  apply saveExisting_fields in Hsave as (_ & Hid & Hnu & _).
  destruct (updateAssignments_identity (req_body req !! "title")
    (req_body req !! "description") (req_body req !! "completed")
    (req_body req !! "priority") (req_body req !! "dueDate")
    {| doc := old; invalid := [] |}) as (Hid' & Hu' & _).
  fold (edited req old) in Hid', Hu'. simpl in Hid', Hu'.
  apply others_replaceFirst; [congruence|].
  intros t Ht Hidt.
  rewrite (uniqueIds_same_id db t old); [done..|congruence].
Qed.

Lemma deleteTodo_others db req :
  others (req_user req) (deleteTodo db req).2 = others (req_user req) db.
Proof.
  unfold deleteTodo, findOneAndDelete, castId. simpl.
  destruct (castObjectId (req_params_id req)) as [oid|]; simpl; [|done].
  destruct (head _) as [found|]; simpl; [|done].
  apply others_removeFirst. intros t Ht. by apply matches_user in Ht.
Qed.

End HandlerFacts.

(** ** Ownership *)

Ltac by_evaluation := apply (bool_decide_unpack _); vm_compute; exact I.
Ltac by_enumeration := refine (proj1 (Forall_forall _ _) _); by_evaluation.

(** C1. Ownership isolation: a stored task whose owner is not the caller
    is never the task [getTodoById] or [updateTodo] returns, and it is
    still in the store, as it was, after [updateTodo] and after
    [deleteTodo]; more precisely the tasks of all other owners are the
    same before and after, whatever the identifier and the body of the
    request. *)
Theorem ownership_isolation `{Platform} (db : Store) (req : Request) (now : Z)
    (t : Todo) :
  uniqueIds db → t ∈ db → user t ≠ req_user req →
  todoOf (getTodoById db req).1 ≠ Some t
  ∧ (getTodoById db req).2 = db
  ∧ todoOf (updateTodo db now req).1 ≠ Some t
  ∧ t ∈ (updateTodo db now req).2
  ∧ t ∈ (deleteTodo db req).2
  ∧ others (req_user req) (updateTodo db now req).2 = others (req_user req) db
  ∧ others (req_user req) (deleteTodo db req).2 = others (req_user req) db.
Proof.
  intros Huniq Hin Hother.
  assert (t ∈ others (req_user req) db) as Hkept by by apply elem_of_others.
  pose proof (updateTodo_others db now req Huniq) as Hupd.
  pose proof (deleteTodo_others db req) as Hdel.
  repeat split; try done.
  - intros Hret. apply getTodoById_returns in Hret. tauto.
  - apply getTodoById_store.
  - intros Hret. by apply updateTodo_returns in Hret.
  - rewrite <- Hupd in Hkept. by apply elem_of_others in Hkept as [? _].
  - rewrite <- Hdel in Hkept. by apply elem_of_others in Hkept as [? _].
Qed.

Lemma ownership_isolation_witness :
  let req := Sample.request Sample.bob Sample.id2 [] [("completed", JBool false)] in
  Sample.docs ∈ (updateTodo (H := Reference.platform) Sample.db 5000 req).2
  ∧ Sample.docs ∈ (deleteTodo (H := Reference.platform) Sample.db req).2.
Proof.
  intros req.
  assert (uniqueIds Sample.db) as H1 by by_evaluation.
  assert (Sample.docs ∈ Sample.db) as H2 by by_evaluation.
  assert (user Sample.docs ≠ req_user req) as H3 by by_evaluation.
  pose proof (ownership_isolation (H := Reference.platform)
                Sample.db req 5000 Sample.docs H1 H2 H3) as Hiso.
  split; apply Hiso.
Defined.

(** C2, as stated, fails for an identifier the store cannot cast: no
    task has the identifier [abc], and the answer is the 500 envelope of
    the cast error, not the 404 one. *)
Lemma existence_hiding_malformed_id :
  let req := Sample.request Sample.alice "abc" [] [] in
  (∀ t, t ∈ Sample.db → _id t ≠ req_params_id req)
  ∧ (getTodoById (H := Reference.platform) Sample.db req).1
    = serverError "Server error while fetching todo" (CastError "_id")
  ∧ (getTodoById (H := Reference.platform) Sample.db req).1 ≠ notFound.
Proof.
  intros req. split; [|split].
  - by_enumeration.
  - reflexivity.
  - discriminate.
Qed.

(** C2, amended. Existence hiding: for an identifier the store can cast,
    [getTodoById] answers with the same 404 envelope, message
    [Todo not found], and leaves the store as it was, both when no task
    has the identifier and when the tasks that have it belong to another
    owner. *)
Theorem existence_hiding `{Platform} (db : Store) (req : Request) (oid : ObjectId) :
  castObjectId (req_params_id req) = Some oid →
  ((∀ t, t ∈ db → _id t ≠ oid) → getTodoById db req = (notFound, db))
  ∧ ((∀ t, t ∈ db → _id t = oid → user t ≠ req_user req) →
     getTodoById db req = (notFound, db))
  ∧ status notFound = 404 ∧ message notFound = "Todo not found".
Proof.
  intros Hcast.
  assert ((∀ t, t ∈ db → _id t = oid → user t ≠ req_user req) →
          getTodoById db req = (notFound, db)) as Hforeign.
  { intros Hnone. unfold getTodoById.
    pose proof (findOne_owned db req) as Hc. rewrite Hcast in Hc.
    destruct Hc as ([t|] & -> & Hfound); [|done].
    destruct Hfound as (Hin & Hid & Hu). by destruct (Hnone t Hin Hid). }
  repeat split; [|done].
  intros Habsent. apply Hforeign. intros t Hin Hid. by destruct (Habsent t Hin).
Qed.

Lemma existence_hiding_witness :
  getTodoById (H := Reference.platform) Sample.db
    (Sample.request Sample.alice Sample.id3 [] [])
  = getTodoById (H := Reference.platform) Sample.db
      (Sample.request Sample.alice "65a0000000000000000000ff" [] []).
Proof.
  destruct (existence_hiding (H := Reference.platform) Sample.db
              (Sample.request Sample.alice Sample.id3 [] []) Sample.id3
              eq_refl) as (_ & Hforeign & _).
  destruct (existence_hiding (H := Reference.platform) Sample.db
              (Sample.request Sample.alice "65a0000000000000000000ff" [] [])
              "65a0000000000000000000ff" eq_refl) as (Habsent & _).
  rewrite Hforeign, Habsent; [done| |]; by_enumeration.
Defined.

(** ** The identifier check of the get and delete routes *)

(** C10. On [GET /todos/:id] and [DELETE /todos/:id] an identifier that
    is not a MongoId leaves the error [Invalid todo ID] on the request,
    and neither handler reads it: the answer is the handler's answer for
    the request without its validation errors, it is never a 400, and
    when the store cannot cast the identifier it is the 500 envelope
    carrying the cast error, with the store as it was. *)
Theorem unchecked_id_validation `{Platform} (db : Store) (req : Request) :
  isMongoId (req_params_id req) = false →
  validationResult (validate todoIdValidation req)
  = [{| err_param := "id"; err_msg := "Invalid todo ID" |}]
  ∧ GET_todo db req = getTodoById db req
  ∧ DELETE_todo db req = deleteTodo db req
  ∧ status (GET_todo db req).1 ≠ 400
  ∧ status (DELETE_todo db req).1 ≠ 400
  ∧ (castObjectId (req_params_id req) = None →
     GET_todo db req
     = (serverError "Server error while fetching todo" (CastError "_id"), db)
     ∧ DELETE_todo db req
       = (serverError "Server error while deleting todo" (CastError "_id"), db)).
Proof.
  intros Hbad. split; [|split; [done|split; [done|]]].
  - unfold validationResult, validate, todoIdValidation. simpl.
    unfold runChain. simpl. by rewrite Hbad.
  - unfold GET_todo, DELETE_todo, getTodoById, deleteTodo, findOne, find,
      findOneAndDelete, castId. simpl.
    destruct (castObjectId (req_params_id req)) as [oid|]; simpl.
    + repeat split; try discriminate; by repeat case_match.
    + repeat split; try discriminate; done.
Qed.

Lemma unchecked_id_validation_witness :
  status (GET_todo (H := Reference.platform) Sample.db
            (Sample.request Sample.alice "abc" [] [])).1 ≠ 400
  ∧ status (DELETE_todo (H := Reference.platform) Sample.db
              (Sample.request Sample.alice "abc" [] [])).1 = 500.
Proof.
  destruct (unchecked_id_validation (H := Reference.platform) Sample.db
              (Sample.request Sample.alice "abc" [] []) eq_refl)
    as (_ & _ & _ & Hget & _ & Hcast).
  split; [exact Hget|].
  destruct (Hcast eq_refl) as [_ ->]. reflexivity.
Defined.

(** ** Listing *)

#[global] Instance newerFirst_trans : Transitive newerFirst.
Proof. unfold newerFirst. intros x y z ? ?. lia. Qed.

#[global] Instance newerFirst_total : Total newerFirst.
Proof. unfold newerFirst. intros x y. lia. Qed.

Section ListFacts.
Context `{Platform}.

Lemma ceilDiv_ceiling a b : b ≠ 0 → ceilingOf a b (ceilDiv a b).
Proof.
  intros Hb. unfold ceilingOf, ceilDiv.
  pose proof (Z.div_mod (- a) b Hb) as Hdm. split; intros Hsign.
  - pose proof (Z.mod_pos_bound (- a) b Hsign). nia.
  - pose proof (Z.mod_neg_bound (- a) b Hsign). nia.
Qed.

Lemma orElse_nonzero n d : d ≠ 0 → orElse n d ≠ 0.
Proof. intros Hd. unfold orElse. by repeat case_match. Qed.

Lemma effectiveLimit_nonzero req : effectiveLimit req ≠ 0.
Proof. by apply orElse_nonzero. Qed.

(** What [getAllTodos] answers: the server error of a negative skip,
    or the page cut out of the sorted selection, with the size of the
    whole selection as the total. *)
Lemma getAllTodos_eq db req :
  let page := effectivePage req in
  let limit := effectiveLimit req in
  let full := selected (listFilter req) db in
  let total := Z.of_nat (length full) in
  getAllTodos db req
  = if (page - 1) * limit <? 0
    then (serverError "Server error while fetching todos" NegativeSkip, db)
    else (listResponse
            (Model.limit limit (drop (Z.to_nat ((page - 1) * limit)) (sort full)))
            total page limit (ceilDiv total limit),
          db).
Proof.
  unfold getAllTodos, effectivePage, effectiveLimit, selected, listResponse,
    countDocuments, find, castId, Model.skip. simpl.
  by destruct (_ <? 0).
Qed.

Lemma elem_of_selected f db t :
  t ∈ selected f db
  ↔ t ∈ db ∧ user t = f_user f
    ∧ (∀ c, f_completed f = Some c → completed t = c)
    ∧ (∀ p, f_priority f = Some p → priorityName (priority t) = p).
Proof.
  unfold selected, matches, holds.
  rewrite list_elem_of_In, filter_In, <- list_elem_of_In. simpl.
  rewrite !andb_true_iff, bool_decide_eq_true.
  destruct (f_completed f) as [c|], (f_priority f) as [p|];
    rewrite ?bool_decide_eq_true; split.
  all: try (intros (? & (? & ?) & ?); repeat split; try done;
            intros ?; congruence).
  all: intros (? & ? & Hc & Hp); repeat split; auto.

Qed.

Lemma elem_of_limit n (l : list Todo) t : t ∈ Model.limit n l → t ∈ l.
Proof.
  unfold Model.limit. case_match; [done|].
  intros Ht. rewrite <- (take_drop (Z.to_nat (Z.abs n)) l).
  apply elem_of_app. by left.
Qed.

Lemma elem_of_drop n (l : list Todo) t : t ∈ drop n l → t ∈ l.
Proof.
  intros Ht. rewrite <- (take_drop n l). apply elem_of_app. by right.
Qed.

Lemma elem_of_sort (l : list Todo) t : t ∈ sort l ↔ t ∈ l.
Proof. unfold sort. by rewrite merge_sort_Permutation. Qed.

(** Every task of a page is selected by the filter of the request. *)
Lemma page_selected db req t :
  t ∈ todosOf (getAllTodos db req).1 → t ∈ selected (listFilter req) db.
Proof.
  rewrite getAllTodos_eq. case_match; simpl; [by intros ?%elem_of_nil|].
  intros Ht%elem_of_limit%elem_of_drop. by apply elem_of_sort.
Qed.

(** A page is a segment of the sorted selection. *)
Lemma page_segment db req :
  ∃ before after,
    sort (selected (listFilter req) db)
    = before ++ todosOf (getAllTodos db req).1 ++ after.
Proof.
  rewrite getAllTodos_eq. case_match; simpl.
  - by exists [], (sort (selected (listFilter req) db)).
  - unfold todosOf, listResponse. simpl.
    set (l := sort _). set (k := Z.to_nat _).
    unfold Model.limit. case_match.
    + exists (take k l), []. by rewrite app_nil_r, take_drop.
    + set (n := Z.to_nat _).
      exists (take k l), (drop n (drop k l)).
      by rewrite !take_drop.
Qed.

End ListFacts.

Section ListOrder.

Lemma StronglySorted_lookup (l : list Todo) (i j : nat) (ti tj : Todo) :
  StronglySorted newerFirst l → (i < j)%nat →
  l !! i = Some ti → l !! j = Some tj → createdAt tj ≤ createdAt ti.
Proof.
  intros Hs. revert i j. induction Hs as [|x l Hs IH Hall]; intros i j Hij.
  - by rewrite lookup_nil.
  - destruct j as [|j]; [lia|]. destruct i as [|i]; simpl.
    + intros [= <-] Hj. rewrite Forall_forall in Hall.
      apply Hall. by apply list_elem_of_lookup_2 in Hj.
    + apply IH. lia.
Qed.

(** Cutting a list into [m] consecutive pieces of [n] elements loses
    and repeats nothing when [m] pieces are enough. *)
Lemma concat_pages (n m : nat) (l : list Todo) :
  (length l ≤ m * n)%nat →
  concat ((λ k, take n (drop (k * n) l)) <$> seq 0 m) = l.
Proof.
  revert l. induction m as [|m IH]; intros l Hlen; simpl.
  - destruct l; [done | simpl in Hlen; lia].
  - rewrite <- fmap_S_seq, <- list_fmap_compose.
    transitivity (take n l ++ drop n l); [|apply take_drop]. f_equal.
    etransitivity; [|apply (IH (drop n l)); rewrite length_drop; lia].
    f_equal. apply list_fmap_ext. intros _ k _. simpl.
    by rewrite drop_drop.
Qed.

Lemma uniqueIds_selected f db : uniqueIds db → uniqueIds (selected f db).
Proof.
  unfold uniqueIds, selected. induction db as [|x db IH]; simpl; [done|].
  rewrite NoDup_cons. intros [Hx Hnd]. case_match; simpl; [|auto].
  rewrite NoDup_cons. split; [|auto].
  rewrite list_elem_of_fmap in *. intros (y & Hid & Hy). apply Hx.
  exists y. split; [done|].
  by apply list_elem_of_In, filter_In in Hy as [?%list_elem_of_In _].
Qed.

End ListOrder.

(** C3. List filter correctness: with [completed=true] in the query,
    every task of the returned page is a stored task of the caller whose
    flag is true; the selection consists of exactly the caller's
    completed tasks (of the requested priority, if one is requested); and
    whenever the skip is not negative the answer is the 200 envelope
    whose total is the size of the whole selection and whose pages value
    is the ceiling of total over limit.  A negative skip is answered by
    the 500 envelope, with no task. *)
Theorem list_filter_correct `{Platform} (db : Store) (req : Request) :
  req_query req !! "completed" = Some "true" →
  let full := selected (listFilter req) db in
  let total := Z.of_nat (length full) in
  let skip := (effectivePage req - 1) * effectiveLimit req in
  (∀ t, t ∈ todosOf (getAllTodos db req).1 →
        t ∈ db ∧ user t = req_user req ∧ completed t = true)
  ∧ (∀ t, t ∈ full ↔
          t ∈ db ∧ user t = req_user req ∧ completed t = true
          ∧ ∀ p, f_priority (listFilter req) = Some p →
                 priorityName (priority t) = p)
  ∧ (0 ≤ skip →
     ∃ todos pages,
       getAllTodos db req
       = (listResponse todos total (effectivePage req) (effectiveLimit req) pages,
          db)
       ∧ pages = ceilDiv total (effectiveLimit req)
       ∧ ceilingOf total (effectiveLimit req) pages)
  ∧ (skip < 0 →
     status (getAllTodos db req).1 = 500
     ∧ todosOf (getAllTodos db req).1 = []).
Proof.
  intros Hq full total skip.
  assert (∀ t, t ∈ full ↔
               t ∈ db ∧ user t = req_user req ∧ completed t = true
               ∧ ∀ p, f_priority (listFilter req) = Some p →
                      priorityName (priority t) = p) as Hfull.
  { intros t. unfold full. rewrite elem_of_selected. simpl. rewrite Hq. simpl.
    split.
    - intros (? & ? & Hc & ?). repeat split; auto.
    - intros (? & ? & Hc & ?). repeat split; auto. by intros c [= <-]. }
  split; [|split; [done|split]].
  - intros t Ht%page_selected. apply Hfull in Ht. tauto.
  - intros Hskip. rewrite getAllTodos_eq.
    replace (_ <? 0) with false by (symmetry; apply Z.ltb_ge; exact Hskip).
    eexists _, _. split; [done|]. split; [done|].
    apply ceilDiv_ceiling, effectiveLimit_nonzero.
  - intros Hskip. rewrite getAllTodos_eq.
    replace (_ <? 0) with true by (symmetry; apply Z.ltb_lt; exact Hskip).
    done.
Qed.

Lemma list_filter_correct_witness :
  let req := Sample.request Sample.alice ""
               [("completed", "true"); ("page", "2"); ("limit", "2")] [] in
  ∃ todos,
    getAllTodos (H := Reference.platform) Sample.db req
    = (listResponse todos 3 2 2 2, Sample.db).
Proof.
  intros req.
  destruct (list_filter_correct (H := Reference.platform) Sample.db req eq_refl)
    as (_ & _ & Hok & _).
  destruct Hok as (todos & pages & Heq & Hpages & _); [by vm_compute|].
  exists todos. rewrite Heq, Hpages. reflexivity.
Defined.

(** C5. List ordering: the tasks of every page are in order of creation
    time, newest first; a task at a smaller index was not created
    before one at a larger index.  The page is a segment of the whole
    selection sorted that way, so the order also holds from one page to
    the next. *)
Theorem list_order `{Platform} (db : Store) (req : Request) :
  let todos := todosOf (getAllTodos db req).1 in
  let sorted := sort (selected (listFilter req) db) in
  (∀ i j ti tj, (i < j)%nat → todos !! i = Some ti → todos !! j = Some tj →
     createdAt tj ≤ createdAt ti)
  ∧ (∀ i j ti tj, (i < j)%nat → sorted !! i = Some ti → sorted !! j = Some tj →
       createdAt tj ≤ createdAt ti)
  ∧ sorted ≡ₚ selected (listFilter req) db
  ∧ ∃ before after, sorted = before ++ todos ++ after.
Proof.
  intros todos sorted.
  assert (StronglySorted newerFirst sorted) as Hsorted
    by apply (StronglySorted_merge_sort _).
  destruct (page_segment db req) as (before & after & Hseg).
  fold todos sorted in Hseg.
  split; [|split; [|split]].
  - intros i j ti tj. apply StronglySorted_lookup.
    rewrite Hseg in Hsorted.
    by apply StronglySorted_app_1_r, StronglySorted_app_1_l in Hsorted.
  - intros i j ti tj. by apply StronglySorted_lookup.
  - apply merge_sort_Permutation.
  - by exists before, after.
Qed.

Lemma list_order_witness :
  (createdAt <$> todosOf (getAllTodos (H := Reference.platform) Sample.db
                            (Sample.request Sample.alice "" [] [])).1)
  = [4000; 2000; 1000]
  ∧ createdAt Sample.milk ≤ createdAt Sample.walk.
Proof.
  split; [reflexivity|].
  destruct (list_order (H := Reference.platform) Sample.db
              (Sample.request Sample.alice "" [] [])) as (Hpage & _).
  apply (Hpage 0%nat 2%nat Sample.walk Sample.milk);
    [lia | reflexivity | reflexivity].
Defined.

(** C6, a request the bounds are not applied to: [limit=1000] is neither
    clamped into 1..100 nor rejected.  The handler works with a limit of
    1000 and answers 200 with up to a thousand tasks on the page. *)
Theorem limit_above_maximum `{Platform} (db : Store) (caller : ObjectId) :
  let req := Sample.request caller "" [("limit", "1000")] [] in
  let full := selected (listFilter req) db in
  let total := Z.of_nat (length full) in
  effectiveLimit req = 1000
  ∧ getAllTodos db req
    = (listResponse (take 1000 (sort full)) total 1 1000 (ceilDiv total 1000),
       db).
Proof.
  intros req full total. split; [reflexivity|].
  rewrite getAllTodos_eq. reflexivity.
Qed.

Section ResultOrders.
Context `{Platform}.

Lemma resultOrder_sort : resultOrder sort.
Proof.
  intros l. split; [apply merge_sort_Permutation|].
  apply (StronglySorted_merge_sort _).
Qed.

Lemma resultOrder_rotated : resultOrder Ties.rotated.
Proof.
  intros l. unfold Ties.rotated. split.
  - rewrite (proj1 (resultOrder_sort _)), Permutation_app_comm.
    by rewrite take_drop.
  - apply resultOrder_sort.
Qed.

(** The handler with the model's order is the handler. *)
Lemma getAllTodosBy_sort db req : getAllTodosBy sort db req = getAllTodos db req.
Proof. reflexivity. Qed.

Lemma getAllTodosBy_eq order db req :
  let page := effectivePage req in
  let limit := effectiveLimit req in
  let full := selected (listFilter req) db in
  let total := Z.of_nat (length full) in
  getAllTodosBy order db req
  = if (page - 1) * limit <? 0
    then (serverError "Server error while fetching todos" NegativeSkip, db)
    else (listResponse
            (Model.limit limit (drop (Z.to_nat ((page - 1) * limit)) (order full)))
            total page limit (ceilDiv total limit),
          db).
Proof.
  unfold getAllTodosBy, effectivePage, effectiveLimit, selected, listResponse,
    countDocuments, find, castId, Model.skip. simpl.
  by destruct (_ <? 0).
Qed.

Lemma distinct_createdAt (l : list Todo) t1 t2 :
  NoDup (createdAt <$> l) → t1 ∈ l → t2 ∈ l →
  createdAt t1 = createdAt t2 → t1 = t2.
Proof.
  induction l as [|x l IH]; simpl.
  - intros _ Ht1. inversion Ht1.
  - rewrite NoDup_cons. intros [Hx Hnd] Ht1 Ht2 Heq.
    apply elem_of_cons in Ht1 as [->|Ht1], Ht2 as [->|Ht2]; auto.
    + exfalso. apply Hx. rewrite Heq. by apply list_elem_of_fmap_2.
    + exfalso. apply Hx. rewrite <- Heq. by apply list_elem_of_fmap_2.
Qed.

(** Tasks created at different times can be returned in one order
    only. *)
Lemma resultOrder_unique order (l : list Todo) :
  resultOrder order → NoDup (createdAt <$> l) → order l = sort l.
Proof.
  intros Horder Hdistinct.
  destruct (Horder l) as [Hperm Hsorted].
  destruct (resultOrder_sort l) as [Hperm' Hsorted'].
  apply (StronglySorted_unique_strong newerFirst); try done.
  - intros t1 t2 Ht1 Ht2 H12 H21. unfold newerFirst in *.
    apply (distinct_createdAt l); [done| | |lia].
    + by rewrite <- Hperm.
    + by rewrite <- Hperm'.
  - by rewrite Hperm, Hperm'.
Qed.

End ResultOrders.

(** C4, as stated, fails when tasks share a creation time: the store may
    return them in one order for the query of page 1 and in another for
    the query of page 2.  With three such tasks and two a page, the
    pages together hold [c] twice and [b] not at all, although nothing
    was written between the two queries. *)
Lemma pagination_repeats_on_ties :
  let union :=
    concat ((λ k, todosOf (getAllTodosBy (H := Reference.platform)
                             (Ties.orders k) Ties.db (Ties.page k)).1)
              <$> seq 0 2) in
  (∀ k, resultOrder (Ties.orders k))
  ∧ effectiveLimit (Ties.page 0) = 2 ∧ effectiveLimit (Ties.page 1) = 2
  ∧ effectivePage (Ties.page 0) = 1 ∧ effectivePage (Ties.page 1) = 2
  ∧ selected (listFilter (Ties.page 0)) Ties.db = [Ties.a; Ties.b; Ties.c]
  ∧ ceilDiv 3 2 = 2
  ∧ union = [Ties.c; Ties.a; Ties.c]
  ∧ ¬ NoDup (_id <$> union)
  ∧ Ties.b ∉ union.
Proof.
  intros union. split; [|repeat (split; [reflexivity|]); split].
  - intros [|k]; [apply resultOrder_sort | apply resultOrder_rotated].
  - intros Hnd. revert Hnd. by_evaluation.
  - by_evaluation.
Qed.

(** C4, amended. Pagination completeness: for a page size [l] of at
    least one and a selection whose tasks have pairwise different
    creation times, take for each page number from 1 to the number of
    pages a request of the same caller with the same filter and page
    size, each answered with the store returning its sorted result in
    any order it may.  Every one of them is answered with the 200
    envelope that reports the same total and number of pages, and the
    pages put one after the other are the whole selection in sorted
    order: the same tasks as the selection, none missing and none
    twice. *)
Theorem pagination_complete `{Platform} (db : Store)
    (orders : nat → list Todo → list Todo) (reqs : nat → Request)
    (f : Filter) (l : Z) :
  1 ≤ l →
  let full := selected f db in
  let total := Z.of_nat (length full) in
  let pages := Z.to_nat (ceilDiv total l) in
  NoDup (createdAt <$> full) →
  (∀ k, (k < pages)%nat → resultOrder (orders k)) →
  (∀ k, (k < pages)%nat →
        listFilter (reqs k) = f
        ∧ effectiveLimit (reqs k) = l
        ∧ effectivePage (reqs k) = Z.of_nat k + 1) →
  let union :=
    concat ((λ k, todosOf (getAllTodosBy (orders k) db (reqs k)).1)
              <$> seq 0 pages) in
  (∀ k, (k < pages)%nat →
        ∃ todos,
          getAllTodosBy (orders k) db (reqs k)
          = (listResponse todos total (Z.of_nat k + 1) l (ceilDiv total l), db))
  ∧ ceilingOf total l (Z.of_nat pages)
  ∧ union = sort full
  ∧ union ≡ₚ full
  ∧ (∀ t, t ∈ union ↔ t ∈ full)
  ∧ NoDup union
  ∧ (uniqueIds db → NoDup (_id <$> union)).
Proof.
  intros Hl full total pages Hdistinct Horders Hreqs union.
  assert (ceilingOf total l (ceilDiv total l)) as Hceil
    by (apply ceilDiv_ceiling; lia).
  assert (0 ≤ ceilDiv total l) as Hpos.
  { destruct Hceil as [Hc _]. specialize (Hc ltac:(lia)). unfold total in *. nia. }
  assert (Z.of_nat pages = ceilDiv total l) as Hpages by (unfold pages; lia).
  assert (∀ k, (k < pages)%nat →
            getAllTodosBy (orders k) db (reqs k)
            = (listResponse
                 (take (Z.to_nat l) (drop (k * Z.to_nat l) (sort full)))
                 total (Z.of_nat k + 1) l (ceilDiv total l), db)) as Hpage.
  { intros k Hk. destruct (Hreqs k Hk) as (Hf & Hlim & Hp).
    rewrite getAllTodosBy_eq, Hf, Hlim, Hp. fold full total.
    rewrite (resultOrder_unique (orders k) full (Horders k Hk) Hdistinct).
    replace (_ <? 0) with false by (symmetry; apply Z.ltb_ge; nia).
    unfold Model.limit.
    replace (l =? 0) with false by (symmetry; apply Z.eqb_neq; lia).
    replace (Z.to_nat (Z.abs l)) with (Z.to_nat l) by lia.
    replace (Z.of_nat k + 1 - 1) with (Z.of_nat k) by lia.
    by rewrite Z2Nat.inj_mul, Nat2Z.id by lia. }
  assert (union = sort full) as Hunion.
  { unfold union.
    rewrite (list_fmap_ext _
               (λ k, take (Z.to_nat l) (drop (k * Z.to_nat l) (sort full)))).
    - apply concat_pages. unfold sort.
      rewrite merge_sort_Permutation.
      destruct Hceil as [Hc _]. specialize (Hc ltac:(lia)).
      apply Nat2Z.inj_le. rewrite Nat2Z.inj_mul, Hpages, Z2Nat.id by lia.
      apply Hc.
    - intros i k [-> Hk]%lookup_seq. by rewrite Hpage. }
  assert (union ≡ₚ full) as Hperm
    by (rewrite Hunion; apply merge_sort_Permutation).
  split; [|split; [|split; [|split; [|split; [|split]]]]]; try done.
  - intros k Hk. eexists. by apply Hpage.
  - by rewrite Hpages.
  - intros t. by rewrite Hperm.
  - rewrite Hperm. by apply NoDup_fmap_1 with createdAt.
  - intros Huniq. rewrite Hperm. by apply uniqueIds_selected.
Qed.

Lemma pagination_complete_witness :
  let page k :=
    Sample.request Sample.alice ""
      [("completed", "true"); ("limit", "2"); ("page", showZ (Z.of_nat k + 1))]
      [] in
  concat ((λ k, todosOf (getAllTodosBy (H := Reference.platform)
                           (Ties.orders k) Sample.db (page k)).1) <$> seq 0 2)
  = [Sample.walk; Sample.docs; Sample.milk].
Proof.
  intros page.
  pose proof (pagination_complete (H := Reference.platform) Sample.db
                Ties.orders page (listFilter (page 0%nat)) 2 ltac:(lia))
    as Hall.
  simpl in Hall. destruct Hall as (_ & _ & Hunion & _).
  - by_evaluation.
  - intros [|k] _; [apply resultOrder_sort | apply resultOrder_rotated].
  - intros k Hk. change (Z.to_nat _) with 2%nat in Hk.
    destruct k as [|[|k]]; [by vm_compute | by vm_compute | lia].
  - exact Hunion.
Defined.

(** ** Partial update *)

Section UpdateFacts.
Context `{Platform}.

Lemma updateTodo_invalid db now req :
  validationResult req ≠ [] →
  updateTodo db now req = (validationFailed (validationResult req), db).
Proof. unfold updateTodo. by destruct (validationResult req). Qed.

(** After the write, the lookup that found [old] finds its new
    form. *)
Lemma head_filter_replaceFirst oid req db old new :
  uniqueIds db →
  head (List.filter (matches (Some oid) (ownedFilter req)) db) = Some old →
  _id new = _id old → user new = user old →
  head (List.filter (matches (Some oid) (ownedFilter req)) (replaceFirst new db))
  = Some new.
Proof.
  intros Huniq Hhead Hid Hu.
  pose proof (head_filter_Some _ _ _ Hhead) as [Hin Hm].
  apply matches_owned in Hm as [Hoid Howner].
  assert (matches (Some oid) (ownedFilter req) new = true) as Hnew
    by (apply matches_owned; split; congruence).
  clear Hhead. induction db as [|x db IH]; [by apply elem_of_nil in Hin|].
  simpl. case_bool_decide as Hx; simpl.
  - by rewrite Hnew.
  - apply elem_of_cons in Hin as [->|Hin]; [congruence|].
    assert (matches (Some oid) (ownedFilter req) x = false) as ->.
    { apply not_true_is_false. intros [? _]%matches_owned. congruence. }
    apply IH; [|done]. unfold uniqueIds in *. simpl in Huniq.
    by apply NoDup_cons in Huniq as [_ ?].
Qed.

Lemma findOne_replaceFirst db req old new :
  uniqueIds db →
  findOne (ownedFilter req) db = inr (Some old) →
  _id new = _id old → user new = user old →
  findOne (ownedFilter req) (replaceFirst new db) = inr (Some new).
Proof.
  intros Huniq Hf Hid Hu. revert Hf. unfold findOne, find, castId. simpl.
  destruct (castObjectId (req_params_id req)) as [oid|]; simpl; [|done].
  intros [= Hhead]. f_equal. by eapply head_filter_replaceFirst.
Qed.

(** The frame of [updateTodo], for any request: the task the caller's
    lookup finds afterwards is the one the response carries, if it
    carries one, and differs from the one found before in no field
    that is absent from the body. *)
Lemma updateTodo_frame db now req old :
  uniqueIds db →
  findOne (ownedFilter req) db = inr (Some old) →
  ∃ new,
    findOne (ownedFilter req) (updateTodo db now req).2 = inr (Some new)
    ∧ (∀ t, todoOf (updateTodo db now req).1 = Some t → t = new)
    ∧ (status (updateTodo db now req).1 = 200 →
       todoOf (updateTodo db now req).1 = Some new
       ∧ saveExisting now old (edited req old) db
         = inr (new, (updateTodo db now req).2))
    ∧ (_id new = _id old ∧ user new = user old
       ∧ createdAt new = createdAt old)
    ∧ (req_body req !! "title" = None → title new = title old)
    ∧ (req_body req !! "description" = None →
       description new = description old)
    ∧ (req_body req !! "completed" = None → completed new = completed old)
    ∧ (req_body req !! "priority" = None → priority new = priority old)
    ∧ (req_body req !! "dueDate" = None → dueDate new = dueDate old).
Proof.
  intros Huniq Hfound.
  destruct (updateTodo_cases db now req)
    as [(Hdb & Hnone & Hst)|(old' & new & _ & Hf & Hsave & Heq)].
  - exists old. rewrite Hdb, Hnone. repeat split; try done.
  - rewrite Hfound in Hf. injection Hf as <-.
    pose proof (saveExisting_fields _ _ _ _ _ _ Hsave)
      as (_ & Hid & Hu & Hti & Hde & Hco & Hpr & Hdu & Hcr).
    destruct (updateAssignments_identity (req_body req !! "title")
      (req_body req !! "description") (req_body req !! "completed")
      (req_body req !! "priority") (req_body req !! "dueDate")
      {| doc := old; invalid := [] |}) as (Hid' & Hu' & Hcr' & _).
    fold (edited req old) in Hid', Hu', Hcr'. simpl in Hid', Hu', Hcr'.
    exists new. rewrite Heq. simpl.
    split; [apply findOne_replaceFirst with old; congruence|].
    split; [by intros t [= <-]|]. split; [done|].
    split; [repeat split; [congruence..|auto]|].
    unfold edited in *.
    repeat split; intros Habsent.
    + by rewrite Hti, Habsent, updateAssignments_title.
    + by rewrite Hde, Habsent, updateAssignments_description.
    + by rewrite Hco, Habsent, updateAssignments_completed.
    + by rewrite Hpr, Habsent, updateAssignments_priority.
    + by rewrite Hdu, Habsent, updateAssignments_dueDate.
Qed.

End UpdateFacts.

Section CompletedOnly.
Context `{Platform}.

Lemma validate_owned chains req :
  ownedFilter (validate chains req) = ownedFilter req.
Proof. reflexivity. Qed.

(** The chains of the update route accept [{ completed: true }] for a
    well-formed identifier. *)
Lemma updateTodoValidation_completed_only req :
  isMongoId (req_params_id req) = true →
  req_body req = {["completed" := JBool true]} →
  validationResult (validate updateTodoValidation req) = [].
Proof.
  intros Hid Hbody.
  unfold validationResult, validate, updateTodoValidation. simpl.
  unfold runChain, fieldValue. simpl. rewrite Hid, Hbody.
  rewrite lookup_singleton_eq, !lookup_singleton_ne by done. done.
Qed.

Lemma modifiedPaths_withCompleted old b :
  modifiedPaths old (withCompleted b old)
  = if bool_decide (completed old = b) then [] else ["completed"].
Proof.
  unfold modifiedPaths. simpl. by repeat case_bool_decide.
Qed.

Lemma updateTodo_completed_only db now req old :
  validationResult req = [] →
  findOne (ownedFilter req) db = inr (Some old) →
  req_body req = {["completed" := JBool true]} →
  title old ≠ "" →
  status (updateTodo db now req).1 = 200
  ∧ ∃ t, todoOf (updateTodo db now req).1 = Some t ∧ completed t = true.
Proof.
  intros Hvalid Hfound Hbody Htitle.
  unfold updateTodo. rewrite Hvalid, Hfound, Hbody.
  rewrite lookup_singleton_eq, !lookup_singleton_ne by done. simpl.
  unfold saveExisting. simpl. rewrite modifiedPaths_withCompleted.
  unfold validationPaths. simpl.
  apply String.eqb_neq in Htitle. rewrite Htitle.
  destruct (bool_decide (completed old = true));
    rewrite !(bool_decide_eq_false_2 (_ ∈ _))
      by (intros Hin; repeat (apply elem_of_cons in Hin as [?|Hin]; [done|]);
          by apply elem_of_nil in Hin);
    simpl; split; try done; by eexists.
Qed.

End CompletedOnly.

(** C7. Partial-update frame: for a task [old] the caller's lookup
    finds, the task found after [PUT /todos/:id] (the one in the
    response, when there is one) has the prior value in every field
    whose key is absent from the body, and the same identifier, owner and
    creation time.  For the body [{ completed: true }], a well-formed
    identifier and a stored title that is not empty, the answer is 200,
    the flag is true and title, description, priority and due date are
    the prior ones. *)
Theorem partial_update_frame `{Platform} (db : Store) (now : Z) (req : Request)
    (old : Todo) :
  uniqueIds db →
  findOne (ownedFilter req) db = inr (Some old) →
  ∃ new,
    findOne (ownedFilter req) (PUT_todo db now req).2 = inr (Some new)
    ∧ (∀ t, todoOf (PUT_todo db now req).1 = Some t → t = new)
    ∧ (_id new = _id old ∧ user new = user old ∧ createdAt new = createdAt old)
    ∧ (req_body req !! "title" = None → title new = title old)
    ∧ (req_body req !! "description" = None → description new = description old)
    ∧ (req_body req !! "completed" = None → completed new = completed old)
    ∧ (req_body req !! "priority" = None → priority new = priority old)
    ∧ (req_body req !! "dueDate" = None → dueDate new = dueDate old)
    ∧ (req_body req = {["completed" := JBool true]} →
       isMongoId (req_params_id req) = true → title old ≠ "" →
       status (PUT_todo db now req).1 = 200
       ∧ todoOf (PUT_todo db now req).1 = Some new
       ∧ completed new = true
       ∧ title new = title old ∧ description new = description old
       ∧ priority new = priority old ∧ dueDate new = dueDate old).
Proof.
  intros Huniq Hfound. unfold PUT_todo.
  set (r := validate updateTodoValidation req).
  destruct (updateTodo_frame db now r old Huniq Hfound)
    as (new & Hafter & Hret & Hok & Hident & Hti & Hde & Hco & Hpr & Hdu).
  exists new.
  split; [exact Hafter|]. split; [exact Hret|]. split; [exact Hident|].
  split; [exact Hti|]. split; [exact Hde|]. split; [exact Hco|].
  split; [exact Hpr|]. split; [exact Hdu|].
  intros Hbody Hid Htitle.
  pose proof (updateTodoValidation_completed_only req Hid Hbody) as Hvalid.
  destruct (updateTodo_completed_only db now r old Hvalid Hfound Hbody Htitle)
    as (Hst & t & Ht & Hflag).
  assert (∀ k : string, k ≠ "completed" → req_body r !! k = None) as Hno.
  { intros k Hk. change (req_body r) with (req_body req). rewrite Hbody.
    by apply lookup_singleton_ne. }
  rewrite <- (Hret t Ht). split; [done|]. split; [done|]. split; [done|].
  rewrite (Hret t Ht). repeat split; [apply Hti|apply Hde|apply Hpr|apply Hdu].
  all: by apply Hno.
Qed.

Lemma partial_update_frame_witness :
  let req := Sample.request Sample.bob Sample.id3 [] [("completed", JBool true)] in
  ∃ new,
    todoOf (PUT_todo (H := Reference.platform) Sample.db 5000 req).1 = Some new
    ∧ completed new = true
    ∧ title new = "file taxes" ∧ priority new = High.
Proof.
  intros req.
  destruct (partial_update_frame (H := Reference.platform) Sample.db 5000 req
              Sample.taxes) as (new & _ & _ & _ & _ & _ & _ & _ & _ & Honly).
  - by_evaluation.
  - reflexivity.
  - destruct Honly as (_ & Hret & Hflag & Hti & _ & Hpr & _);
      [reflexivity | reflexivity | discriminate |].
    exists new. by rewrite Hret, Hflag, Hti, Hpr.
Defined.

(** C8, the request that should clear a due date: with [dueDate: null]
    in the body, the chain [body('dueDate').optional().isISO8601()] of
    the update route runs its check on the empty string, so the request
    is answered 400 with the error on [dueDate] and the store is left as
    it was, although the assignments of the handler, had they run, end
    with no due date. *)
Theorem clear_due_date_rejected `{Platform} (db : Store) (now : Z)
    (req : Request) :
  isISO8601 "" = false →
  req_body req !! "dueDate" = Some JNull →
  status (PUT_todo db now req).1 = 400
  ∧ (PUT_todo db now req).2 = db
  ∧ {| err_param := "dueDate"; err_msg := "Due date must be a valid date" |}
    ∈ errors (PUT_todo db now req).1
  ∧ ∀ old, dueDate (doc (edited req old)) = None.
Proof.
  intros Hiso Hnull.
  set (e := {| err_param := "dueDate";
               err_msg := "Due date must be a valid date" |}).
  assert (e ∈ validationResult (validate updateTodoValidation req)) as Hin.
  { unfold validationResult, validate. cbn [req_errors].
    apply list_elem_of_bind.
    exists (check IsISO8601 "Due date must be a valid date"
              (optional (body "dueDate"))).
    split.
    - unfold runChain, fieldValue. simpl. rewrite Hnull. simpl.
      rewrite Hiso. by left.
    - unfold updateTodoValidation. do 5 right. left. }
  unfold PUT_todo. rewrite updateTodo_invalid.
  - repeat split; try done.
    intros old. unfold edited, updateAssignments. rewrite Hnull. simpl.
    reflexivity.
  - intros Hnil. rewrite Hnil in Hin. by apply elem_of_nil in Hin.
Qed.

Lemma clear_due_date_rejected_witness :
  let req := Sample.request Sample.alice Sample.id2 [] [("dueDate", JNull)] in
  dueDate Sample.docs = Some 1705708800000
  ∧ status (PUT_todo (H := Reference.platform) Sample.db 5000 req).1 = 400
  ∧ (PUT_todo (H := Reference.platform) Sample.db 5000 req).2 = Sample.db.
Proof.
  intros req. split; [reflexivity|].
  destruct (clear_due_date_rejected (H := Reference.platform) Sample.db 5000 req
              eq_refl eq_refl) as (Hst & Hdb & _).
  by split.
Defined.

(** ** Create, then get *)

Section CreateFacts.
Context `{Platform}.

Lemma priorityOfName_name p prio :
  priorityOfName p = Some prio → priorityName prio = p.
Proof.
  unfold priorityOfName.
  repeat (case_match; try discriminate);
    intros [= <-]; simpl; symmetry; by apply String.eqb_eq.
Qed.

Lemma truthy_JStr s : s ≠ "" → truthy (JStr s) = true.
Proof. intros Hs. simpl. by apply String.eqb_neq in Hs as ->. Qed.

(** What [save] accepted was built without a failed assignment, and
    is stored last, stamped with the time of the save. *)
Lemma saveNew_saved now d db t db' :
  saveNew now d db = inr (t, db') →
  invalid d = [] ∧ (_id (doc d) ∉ _id <$> db)
  ∧ t = withTimestamps now now (doc d) ∧ db' = db ++ [t].
Proof.
  unfold saveNew.
  destruct (validationPaths allPaths d) as [|p ps] eqn:Hpaths;
    [|discriminate].
  case_bool_decide; [discriminate|]. intros [= <- <-].
  unfold validationPaths in Hpaths. by apply app_eq_nil in Hpaths as [-> _].
Qed.

(** The document [createTodo] builds, when no assignment failed. *)
Lemma created_doc req newId :
  invalid (created req newId) = [] →
  doc (created req newId)
  = {| _id := newId;
       title := default "" (req_body req !! "title" ≫= castString);
       description := req_body req !! "description" ≫= castString;
       completed := false;
       priority :=
         default Medium
           (castString (priorityOrMedium (req_body req !! "priority"))
            ≫= priorityOfName);
       dueDate :=
         v ← req_body req !! "dueDate"; if truthy v then newDate v else None;
       user := req_user req;
       createdAt := 0;
       updatedAt := 0 |}.
Proof.
  unfold created.
  generalize (priorityOrMedium (req_body req !! "priority")). intros pr.
  destruct (req_body req !! "title") as [ti|],
           (req_body req !! "description") as [de|],
           (req_body req !! "dueDate") as [du|].
  all: unfold assign, dueDateOnCreate, setTitle, setDescription, setPriority,
         setDueDate, edit, invalidate, blank; simpl.
  all: try destruct (castString ti) as [s|]; simpl.
  all: destruct (castString pr ≫= priorityOfName) as [p|]; simpl.
  all: try destruct (truthy du); simpl.
  all: try destruct (newDate du) as [ms|]; simpl.
  all: try done.
Qed.

Lemma created_fields req newId :
  invalid (created req newId) = [] →
  let t := doc (created req newId) in
  _id t = newId ∧ user t = req_user req ∧ completed t = false
  ∧ (∀ s, req_body req !! "title" = Some (JStr s) → title t = s)
  ∧ (req_body req !! "description" = None → description t = None)
  ∧ (∀ s, req_body req !! "description" = Some (JStr s) →
          description t = Some s)
  ∧ (req_body req !! "priority" = None → priority t = Medium)
  ∧ (∀ p, req_body req !! "priority" = Some (JStr p) → p ≠ "" →
          priorityName (priority t) = p)
  ∧ (req_body req !! "dueDate" = None → dueDate t = None)
  ∧ (∀ s, req_body req !! "dueDate" = Some (JStr s) → s ≠ "" →
          dueDate t = dateParse s).
Proof.
  intros Hvalid. simpl. rewrite (created_doc req newId Hvalid). simpl.
  repeat split.
  - by intros s ->.
  - by intros ->.
  - by intros s ->.
  - by intros ->.
  - intros p Hp Hne. revert Hvalid. unfold created. rewrite Hp.
    unfold priorityOrMedium. rewrite (truthy_JStr p Hne). simpl.
    destruct (priorityOfName p) as [prio|] eqn:Hprio; simpl.
    + intros _. by apply priorityOfName_name.
    + unfold setPriority. simpl. rewrite Hprio. simpl.
      unfold assign, dueDateOnCreate, setDueDate, edit, invalidate.
      repeat case_match; simpl; intros Hnil;
        first [discriminate | by apply app_eq_nil in Hnil as [? ?]].
  - by intros ->.
  - intros s -> Hne. pose proof (truthy_JStr s Hne) as Htruthy.
    simpl in *. by rewrite Htruthy.
Qed.

End CreateFacts.

Section CreateThenGet.
Context `{Platform}.

Lemma createTodo_created db newId now req :
  status (createTodo db newId now req).1 = 201 →
  ∃ t,
    createTodo db newId now req
    = (ok 201 "Todo created successfully" (Some (DataTodo t)), db ++ [t])
    ∧ saveNew now (created req newId) db = inr (t, db ++ [t]).
Proof.
  unfold createTodo. fold (created req newId).
  destruct (validationResult req); [|discriminate].
  destruct (saveNew now (created req newId) db) as [e|[t db']] eqn:Hsave;
    [discriminate|].
  intros _. exists t.
  by destruct (saveNew_saved _ _ _ _ _ Hsave) as (_ & _ & _ & ->).
Qed.

Lemma filter_none (p : Todo → bool) db :
  (∀ t, t ∈ db → p t = false) → List.filter p db = [].
Proof.
  induction db as [|x db IH]; simpl; [done|]. intros Hall.
  rewrite (Hall x) by left. apply IH. intros t Ht. apply Hall. by right.
Qed.

(** A task appended under a fresh identifier is what its owner gets
    back for that identifier. *)
Lemma getTodoById_appended db t get :
  _id t ∉ (_id <$> db) →
  castObjectId (req_params_id get) = Some (_id t) →
  req_user get = user t →
  getTodoById (db ++ [t]) get
  = (ok 200 "Todo retrieved successfully" (Some (DataTodo t)), db ++ [t]).
Proof.
  intros Hfresh Hcast Hu.
  unfold getTodoById, findOne, find, castId. simpl. rewrite Hcast. simpl.
  rewrite List.filter_app, filter_none; simpl.
  - assert (matches (Some (_id t)) (ownedFilter get) t = true) as ->
      by by apply matches_owned.
    done.
  - intros x Hx. apply not_true_is_false. intros [Hid _]%matches_owned.
    apply Hfresh. rewrite <- Hid. by apply list_elem_of_fmap_2.
Qed.

(** A request with no validation error whose body is a title of 1 to
    100 characters is answered 201 when the new identifier is fresh. *)
Lemma createTodo_title_only db newId now req s :
  validationResult req = [] →
  newId ∉ (_id <$> db) →
  req_body req = {["title" := JStr s]} →
  s ≠ "" → strlen s ≤ 100 →
  status (createTodo db newId now req).1 = 201.
Proof.
  intros Hvalid Hfresh Hbody Hs Hlen.
  unfold createTodo. rewrite Hvalid, Hbody.
  rewrite lookup_singleton_eq, !lookup_singleton_ne by done. simpl.
  unfold saveNew, validationPaths. simpl.
  apply String.eqb_neq in Hs. rewrite Hs.
  replace (100 <? strlen s) with false by (symmetry; apply Z.ltb_ge; lia).
  simpl. by rewrite bool_decide_eq_false_2.
Qed.

End CreateThenGet.

(** C9. Create/get round trip with defaults: when [createTodo] answers
    201, the task of the response is stored last, under the generated
    identifier, owned by the caller, stamped with the time of the save,
    not completed, with the submitted title, description, priority and
    due date, priority medium and no description or due date where the
    body has none; and [getTodoById] by the same caller for that
    identifier answers 200 with the same task.  A body that is just a
    title of 1 to 100 characters, with a fresh identifier, is answered
    201. *)
Theorem create_get_roundtrip `{Platform} (db : Store) (newId : ObjectId)
    (now : Z) (req : Request) :
  (validationResult req = [] → newId ∉ (_id <$> db) →
   ∀ s, req_body req = {["title" := JStr s]} → s ≠ "" → strlen s ≤ 100 →
        status (createTodo db newId now req).1 = 201)
  ∧ (status (createTodo db newId now req).1 = 201 →
     ∃ t,
       createTodo db newId now req
       = (ok 201 "Todo created successfully" (Some (DataTodo t)), db ++ [t])
       ∧ _id t = newId ∧ user t = req_user req
       ∧ createdAt t = now ∧ updatedAt t = now
       ∧ completed t = false
       ∧ (∀ s, req_body req !! "title" = Some (JStr s) → title t = s)
       ∧ (req_body req !! "description" = None → description t = None)
       ∧ (∀ s, req_body req !! "description" = Some (JStr s) →
               description t = Some s)
       ∧ (req_body req !! "priority" = None → priority t = Medium)
       ∧ (∀ p, req_body req !! "priority" = Some (JStr p) → p ≠ "" →
               priorityName (priority t) = p)
       ∧ (req_body req !! "dueDate" = None → dueDate t = None)
       ∧ (∀ s, req_body req !! "dueDate" = Some (JStr s) → s ≠ "" →
               dueDate t = dateParse s)
       ∧ ∀ get,
           req_user get = req_user req →
           castObjectId (req_params_id get) = Some newId →
           getTodoById (db ++ [t]) get
           = (ok 200 "Todo retrieved successfully" (Some (DataTodo t)),
              db ++ [t])).
Proof.
  split.
  - intros Hvalid Hfresh s Hbody Hs Hlen.
    by apply createTodo_title_only with s.
  - intros Hst.
    destruct (createTodo_created db newId now req Hst) as (t & Heq & Hsave).
    apply saveNew_saved in Hsave as (Hvalid & Hfresh & Ht & _).
    pose proof (created_fields req newId Hvalid)
      as (Hid & Hu & Hco & Hti & Hde0 & Hde & Hpr0 & Hpr & Hdu0 & Hdu).
    exists t. rewrite Ht in *. simpl in *.
    split; [done|]. repeat split; try done.
    intros get Hcaller Hcast. rewrite <- Ht.
    apply getTodoById_appended; rewrite Ht; simpl; congruence.
Qed.

Lemma create_get_roundtrip_witness :
  let post :=
    validate (H := Reference.platform) createTodoValidation
      (Sample.request Sample.alice "" []
         [("title", JStr "call mum"); ("dueDate", JStr "2024-01-20")]) in
  let get := Sample.request Sample.alice "65A000000000000000000009" [] [] in
  ∃ t db',
    createTodo (H := Reference.platform) Sample.db "65a000000000000000000009"
      5000 post
    = (ok 201 "Todo created successfully" (Some (DataTodo t)), db')
    ∧ title t = "call mum" ∧ priority t = Medium ∧ completed t = false
    ∧ dueDate t = Some 1705708800000
    ∧ todoOf (getTodoById (H := Reference.platform) db' get).1 = Some t.
Proof.
  intros post get.
  destruct (create_get_roundtrip (H := Reference.platform) Sample.db
              "65a000000000000000000009" 5000 post) as [_ Hround].
  destruct Hround
    as (t & Heq & _ & _ & _ & _ & Hco & Hti & _ & _ & Hpr & _ & _ & Hdu & Hget);
    [reflexivity|].
  exists t, (Sample.db ++ [t]). split; [exact Heq|].
  split; [by apply Hti|]. split; [by apply Hpr|]. split; [exact Hco|].
  split; [by rewrite (Hdu "2024-01-20")|].
  by rewrite (Hget get).
Defined.

(** ** The unique index is an invariant of the handlers *)

Section UniqueIds.
Context `{Platform}.

Lemma replaceFirst_ids new db : _id <$> replaceFirst new db = _id <$> db.
Proof.
  induction db as [|x db IH]; simpl; [done|].
  case_bool_decide as Hx; simpl; [by rewrite Hx | f_equal; exact IH].
Qed.

Lemma elem_of_removeFirst (p : Todo → bool) db t :
  t ∈ removeFirst p db → t ∈ db.
Proof.
  induction db as [|x db IH]; simpl; [done|].
  destruct (p x); [by right|].
  intros [->|Ht]%elem_of_cons; [left | right; auto].
Qed.

Lemma uniqueIds_removeFirst (p : Todo → bool) db :
  uniqueIds db → uniqueIds (removeFirst p db).
Proof.
  unfold uniqueIds. induction db as [|x db IH]; simpl; [done|].
  rewrite NoDup_cons. intros [Hx Hnd]. destruct (p x); [done|]. simpl.
  apply NoDup_cons. split; [|auto].
  rewrite list_elem_of_fmap in *. intros (y & Hid & Hy). apply Hx.
  exists y. split; [done|]. by apply elem_of_removeFirst in Hy.
Qed.

Lemma uniqueIds_preserved db newId now req :
  uniqueIds db →
  uniqueIds (getAllTodos db req).2
  ∧ uniqueIds (getTodoById db req).2
  ∧ uniqueIds (createTodo db newId now req).2
  ∧ uniqueIds (updateTodo db now req).2
  ∧ uniqueIds (deleteTodo db req).2.
Proof.
  intros Huniq. repeat split.
  - rewrite getAllTodos_eq. by case_match.
  - by rewrite getTodoById_store.
  - unfold createTodo. destruct (validationResult req); [|done].
    destruct (saveNew now _ db) as [e|[t db']] eqn:Hsave; [done|]. simpl.
    apply saveNew_saved in Hsave as (_ & Hfresh & Ht & ->).
    unfold uniqueIds. rewrite fmap_app. apply NoDup_app. simpl.
    split; [done|]. split; [|apply NoDup_singleton].
    intros i Hi ->%list_elem_of_singleton. apply Hfresh.
    by rewrite Ht in *.
  - destruct (updateTodo_cases db now req)
      as [(-> & _)|(old & new & _ & _ & _ & ->)]; [done|].
    simpl. unfold uniqueIds. by rewrite replaceFirst_ids.
  - unfold deleteTodo, findOneAndDelete, castId. simpl.
    destruct (castObjectId (req_params_id req)); simpl; [|done].
    destruct (head _); simpl; [|done]. by apply uniqueIds_removeFirst.
Qed.

End UniqueIds.

(** * Further properties of the handlers and the routes *)

(** ** Listing *)

(** X1. [getAllTodos] is a read of the caller's own tasks: whatever the
    query, the store is left as it was and every task of the page is a
    stored task of the caller. *)
Theorem list_reads_own_tasks `{Platform} (db : Store) (req : Request) :
  (getAllTodos db req).2 = db
  ∧ ∀ t, t ∈ todosOf (getAllTodos db req).1 → t ∈ db ∧ user t = req_user req.
Proof.
  split.
  - rewrite getAllTodos_eq. by destruct (_ <? 0).
  - intros t Ht%page_selected. apply elem_of_selected in Ht. tauto.
Qed.

Lemma list_reads_own_tasks_witness :
  Sample.taxes ∉ todosOf (getAllTodos (H := Reference.platform) Sample.db
                            (Sample.request Sample.alice "" [] [])).1.
Proof.
  intros Hin.
  destruct (list_reads_own_tasks (H := Reference.platform) Sample.db
              (Sample.request Sample.alice "" [] [])) as [_ Hown].
  by destruct (Hown Sample.taxes Hin) as [_ Hu].
Defined.

(** X2. The [completed] parameter is compared with the string [true]:
    any other value, the empty one included, selects the tasks that are
    not completed, and only such tasks are on the page. *)
Theorem list_completed_other_value `{Platform} (db : Store) (req : Request)
    (c : string) :
  req_query req !! "completed" = Some c → c ≠ "true" →
  (∀ t, t ∈ todosOf (getAllTodos db req).1 → completed t = false)
  ∧ ∀ t, t ∈ selected (listFilter req) db ↔
         t ∈ db ∧ user t = req_user req ∧ completed t = false
         ∧ ∀ p, f_priority (listFilter req) = Some p →
                priorityName (priority t) = p.
Proof.
  intros Hq Hc.
  assert (f_completed (listFilter req) = Some false) as Hf.
  { simpl. rewrite Hq. simpl. f_equal. by apply String.eqb_neq. }
  assert (∀ t, t ∈ selected (listFilter req) db ↔
               t ∈ db ∧ user t = req_user req ∧ completed t = false
               ∧ ∀ p, f_priority (listFilter req) = Some p →
                      priorityName (priority t) = p) as Hsel.
  { intros t. rewrite elem_of_selected, Hf. split.
    - intros (? & ? & Hco & ?). repeat split; auto.
    - intros (? & ? & Hco & ?). repeat split; auto. by intros ? [= <-]. }
  split; [|done].
  intros t Ht%page_selected. apply Hsel in Ht. tauto.
Qed.

Lemma list_completed_other_value_witness :
  todosOf (getAllTodos (H := Reference.platform) Sample.db
             (Sample.request Sample.bob "" [("completed", "yes")] [])).1
  = [Sample.taxes]
  ∧ completed Sample.taxes = false.
Proof.
  split; [reflexivity|].
  destruct (list_completed_other_value (H := Reference.platform) Sample.db
              (Sample.request Sample.bob "" [("completed", "yes")] []) "yes")
    as [Hpage _]; [reflexivity | discriminate |].
  apply Hpage. by_evaluation.
Defined.

Section ListParameters.
Context `{Platform}.

Lemma withoutQuery_priority req :
  req_query req !! "priority" = Some "" →
  listFilter (withoutQuery "priority" req) = listFilter req
  ∧ effectivePage (withoutQuery "priority" req) = effectivePage req
  ∧ effectiveLimit (withoutQuery "priority" req) = effectiveLimit req.
Proof.
  intros Hp. unfold listFilter, effectivePage, effectiveLimit, withoutQuery.
  simpl. rewrite Hp, lookup_delete_eq, !lookup_delete_ne by done. done.
Qed.

Lemma priorityName_known p : priorityName p ∈ priorities.
Proof. unfold priorities. destruct p; simpl; set_unfold; tauto. Qed.

Lemma length_page (l : list Todo) (n k : Z) :
  1 ≤ n → 0 ≤ k →
  Z.of_nat (length (Model.limit n (drop (Z.to_nat k) (sort l))))
  = Z.min n (Z.max 0 (Z.of_nat (length l) - k)).
Proof.
  intros Hn Hk. unfold Model.limit.
  replace (n =? 0) with false by (symmetry; apply Z.eqb_neq; lia).
  rewrite length_take, length_drop. unfold sort.
  rewrite merge_sort_Permutation. lia.
Qed.

End ListParameters.

(** X3. The [priority] parameter: an empty value is no filter at all,
    the answer being that of the request without the parameter; a
    non-empty value leaves on the page only tasks of that priority, and
    a value that names no priority selects nothing. *)
Theorem list_priority_parameter `{Platform} (db : Store) (req : Request)
    (p : string) :
  req_query req !! "priority" = Some p →
  (p = "" → getAllTodos db req = getAllTodos db (withoutQuery "priority" req))
  ∧ (p ≠ "" →
     (∀ t, t ∈ todosOf (getAllTodos db req).1 → priorityName (priority t) = p)
     ∧ (p ∉ priorities →
        selected (listFilter req) db = []
        ∧ todosOf (getAllTodos db req).1 = [])).
Proof.
  intros Hq. split.
  - intros ->. rewrite !getAllTodos_eq.
    by destruct (withoutQuery_priority req Hq) as (-> & -> & ->).
  - intros Hp.
    assert (f_priority (listFilter req) = Some p) as Hf.
    { simpl. rewrite Hq. by apply String.eqb_neq in Hp as ->. }
    assert (∀ t, t ∈ selected (listFilter req) db →
                 priorityName (priority t) = p) as Hsel.
    { intros t (_ & _ & _ & Hpr)%elem_of_selected. by apply Hpr. }
    split; [intros t Ht%page_selected; by apply Hsel|].
    intros Hunknown.
    assert (selected (listFilter req) db = []) as Hnone.
    { apply filter_none. intros t _. apply not_true_is_false. intros Hm.
      assert (t ∈ selected (listFilter req) db) as Ht.
      { apply elem_of_selected. unfold matches in Hm.
        rewrite !andb_true_iff in Hm. destruct Hm as [[[_ Hu] Hc] Hpr].
        rewrite Hf in *. simpl in Hpr.
        apply bool_decide_eq_true in Hu, Hpr.
        pose proof (priorityName_known (priority t)). congruence. }
      apply Hunknown. rewrite <- (Hsel t Ht). apply priorityName_known. }
    split; [done|].
    destruct (todosOf _) as [|t ts] eqn:Hpage; [done|].
    assert (t ∈ selected (listFilter req) db) as Ht
      by (apply page_selected; rewrite Hpage; left).
    rewrite Hnone in Ht. by apply elem_of_nil in Ht.
Qed.

Lemma list_priority_parameter_witness :
  let urgent := Sample.request Sample.alice "" [("priority", "urgent")] [] in
  let high := Sample.request Sample.alice "" [("priority", "high")] [] in
  todosOf (getAllTodos (H := Reference.platform) Sample.db urgent).1 = []
  ∧ todosOf (getAllTodos (H := Reference.platform) Sample.db high).1
    = [Sample.docs].
Proof.
  intros urgent high. split; [|reflexivity].
  destruct (list_priority_parameter (H := Reference.platform) Sample.db urgent
              "urgent" eq_refl) as [_ Hfilter].
  destruct Hfilter as [_ Hunknown]; [discriminate|].
  apply Hunknown. by_evaluation.
Defined.

(** X4. Page sizes: for a page number and a limit of at least one, the
    page holds the smaller of the limit and what is left of the
    selection after the earlier pages; so a page before the last is
    full, and a page after the last is empty, still with a 200
    envelope. *)
Theorem page_size `{Platform} (db : Store) (req : Request) :
  let l := effectiveLimit req in
  let p := effectivePage req in
  let total := Z.of_nat (length (selected (listFilter req) db)) in
  let todos := todosOf (getAllTodos db req).1 in
  1 ≤ l → 1 ≤ p →
  status (getAllTodos db req).1 = 200
  ∧ Z.of_nat (length todos) = Z.min l (Z.max 0 (total - (p - 1) * l))
  ∧ (p < ceilDiv total l → Z.of_nat (length todos) = l)
  ∧ (ceilDiv total l < p → todos = []).
Proof.
  intros l p total todos Hl Hp.
  assert (Z.of_nat (length todos) = Z.min l (Z.max 0 (total - (p - 1) * l))
          ∧ status (getAllTodos db req).1 = 200) as [Hlen Hst].
  { unfold todos. rewrite getAllTodos_eq. fold l p.
    replace (_ <? 0) with false by (symmetry; apply Z.ltb_ge; nia).
    split; [|done]. unfold todosOf, listResponse. simpl.
    apply length_page; [done | nia]. }
  destruct (ceilDiv_ceiling total l ltac:(lia)) as [Hceil _].
  specialize (Hceil ltac:(lia)).
  split; [done|]. split; [done|]. split.
  - intros Hbefore. rewrite Hlen. nia.
  - intros Hafter. apply length_zero_iff_nil, Nat2Z.inj. rewrite Hlen. nia.
Qed.

Lemma page_size_witness :
  let page n :=
    Sample.request Sample.alice "" [("limit", "2"); ("page", n)] [] in
  length (todosOf (getAllTodos (H := Reference.platform) Sample.db
                     (page "1")).1) = 2%nat
  ∧ todosOf (getAllTodos (H := Reference.platform) Sample.db (page "3")).1
    = [].
Proof.
  intros page. split.
  - destruct (page_size (H := Reference.platform) Sample.db (page "1"))
      as (_ & _ & Hfull & _); [by vm_compute..|].
    apply Nat2Z.inj. apply Hfull. by vm_compute.
  - destruct (page_size (H := Reference.platform) Sample.db (page "3"))
      as (_ & _ & _ & Hempty); [by vm_compute..|].
    apply Hempty. by vm_compute.
Defined.

(** X5. The skip is computed from the parameters as they are parsed and
    a negative one is refused by the store: [getAllTodos] answers 500
    exactly when (page - 1) * limit is negative, and 200 otherwise.  In
    particular a negative page with a positive limit is a server error,
    not an empty page. *)
Theorem list_negative_skip `{Platform} (db : Store) (req : Request) :
  let skip := (effectivePage req - 1) * effectiveLimit req in
  (skip < 0 ↔ status (getAllTodos db req).1 = 500)
  ∧ (0 ≤ skip ↔ status (getAllTodos db req).1 = 200)
  ∧ (effectivePage req < 0 → 0 < effectiveLimit req →
     getAllTodos db req
     = (serverError "Server error while fetching todos" NegativeSkip, db)).
Proof.
  intros skip. rewrite getAllTodos_eq. fold skip.
  destruct (Z.ltb_spec skip 0) as [Hskip|Hskip]; simpl.
  - split; [split; [done | intros _; exact Hskip]|].
    split; [split; [lia | discriminate]|]. done.
  - split; [split; [lia | discriminate]|].
    split; [split; [done | intros _; exact Hskip]|].
    intros Hp Hl. unfold skip in Hskip. nia.
Qed.

Lemma list_negative_skip_witness :
  status (getAllTodos (H := Reference.platform) Sample.db
            (Sample.request Sample.alice "" [("page", "-1")] [])).1 = 500.
Proof.
  destruct (list_negative_skip (H := Reference.platform) Sample.db
              (Sample.request Sample.alice "" [("page", "-1")] []))
    as (_ & _ & Hneg).
  rewrite Hneg; [done | by vm_compute | by vm_compute].
Defined.

(** X6. Defaults: a [page] or [limit] parameter that is missing, does
    not start with a number or parses to zero falls back to page 1 and
    limit 10, so such a request is answered with the ten newest tasks of
    the selection. *)
Theorem list_defaults `{Platform} (db : Store) (req : Request) :
  let full := selected (listFilter req) db in
  let total := Z.of_nat (length full) in
  (parseInt (req_query req !! "page") = None
   ∨ parseInt (req_query req !! "page") = Some 0) →
  (parseInt (req_query req !! "limit") = None
   ∨ parseInt (req_query req !! "limit") = Some 0) →
  getAllTodos db req
  = (listResponse (take 10 (sort full)) total 1 10 (ceilDiv total 10), db).
Proof.
  intros full total Hpage Hlimit. rewrite getAllTodos_eq.
  unfold effectivePage, effectiveLimit.
  by destruct Hpage as [-> | ->], Hlimit as [-> | ->].
Qed.

Lemma list_defaults_witness :
  todosOf (getAllTodos (H := Reference.platform) Sample.db
             (Sample.request Sample.alice ""
                [("page", "first"); ("limit", "0")] [])).1
  = [Sample.walk; Sample.docs; Sample.milk].
Proof.
  rewrite (list_defaults (H := Reference.platform) Sample.db
             (Sample.request Sample.alice ""
                [("page", "first"); ("limit", "0")] []));
    [reflexivity | by left | by right].
Defined.

(** ** Deleting *)

Section DeleteFacts.
Context `{Platform}.

(** Where [removeFirst] cuts: before the first selected document. *)
Lemma removeFirst_split (p : Todo → bool) db t :
  head (List.filter p db) = Some t →
  ∃ before after,
    db = before ++ t :: after
    ∧ removeFirst p db = before ++ after
    ∧ ∀ x, x ∈ before → p x = false.
Proof.
  induction db as [|x db IH]; simpl; [discriminate|].
  destruct (p x) eqn:Hx; simpl.
  - intros [= ->]. exists [], db. repeat split; try done.
    intros y Hy. by apply elem_of_nil in Hy.
  - intros Hhead. destruct (IH Hhead) as (before & after & -> & -> & Hnone).
    exists (x :: before), after. repeat split; try done.
    intros y [->|Hy]%elem_of_cons; auto.
Qed.

Lemma getTodoById_none db req oid :
  castObjectId (req_params_id req) = Some oid →
  (∀ t, t ∈ db → matches (Some oid) (ownedFilter req) t = false) →
  getTodoById db req = (notFound, db).
Proof.
  intros Hcast Hnone. unfold getTodoById, findOne, find, castId. simpl.
  rewrite Hcast. simpl. by rewrite filter_none.
Qed.

Lemma deleteTodo_none db req oid :
  castObjectId (req_params_id req) = Some oid →
  (∀ t, t ∈ db → matches (Some oid) (ownedFilter req) t = false) →
  deleteTodo db req = (notFound, db).
Proof.
  intros Hcast Hnone. unfold deleteTodo, findOneAndDelete, castId. simpl.
  rewrite Hcast. simpl. by rewrite filter_none.
Qed.

Lemma updateTodo_none db now req oid :
  validationResult req = [] →
  castObjectId (req_params_id req) = Some oid →
  (∀ t, t ∈ db → matches (Some oid) (ownedFilter req) t = false) →
  updateTodo db now req = (notFound, db).
Proof.
  intros Hvalid Hcast Hnone. unfold updateTodo, findOne, find, castId.
  rewrite Hvalid. simpl. rewrite Hcast. simpl. by rewrite filter_none.
Qed.

Lemma not_owned_no_match (db : Store) req oid :
  (∀ t, t ∈ db → _id t = oid → user t ≠ req_user req) →
  ∀ t, t ∈ db → matches (Some oid) (ownedFilter req) t = false.
Proof.
  intros Hnone t Ht. apply not_true_is_false. intros [Hid Hu]%matches_owned.
  by apply (Hnone t Ht Hid).
Qed.

(** What a successful [deleteTodo] did. *)
Lemma deleteTodo_ok db req :
  status (deleteTodo db req).1 = 200 →
  ∃ oid t before after,
    castObjectId (req_params_id req) = Some oid
    ∧ matches (Some oid) (ownedFilter req) t = true
    ∧ db = before ++ t :: after
    ∧ deleteTodo db req
      = (ok 200 "Todo deleted successfully" None, before ++ after)
    ∧ ∀ x, x ∈ before → matches (Some oid) (ownedFilter req) x = false.
Proof.
  unfold deleteTodo, findOneAndDelete, castId. simpl.
  destruct (castObjectId (req_params_id req)) as [oid|]; simpl;
    [|discriminate].
  destruct (head _) as [t|] eqn:Hhead; simpl; [|discriminate].
  intros _. pose proof (head_filter_Some _ _ _ Hhead) as [_ Hm].
  destruct (removeFirst_split _ _ _ Hhead) as (before & after & Hdb & -> & Hb).
  by exists oid, t, before, after.
Qed.

End DeleteFacts.

(** X7. A successful delete removes one task, the caller's task with the
    requested identifier, and leaves every other task in place; after
    it the same caller gets 404 for that identifier, from
    [getTodoById] and from a second [deleteTodo] alike. *)
Theorem delete_removes_the_task `{Platform} (db : Store) (req : Request) :
  uniqueIds db →
  status (deleteTodo db req).1 = 200 →
  ∃ t before after,
    db = before ++ t :: after
    ∧ (deleteTodo db req).2 = before ++ after
    ∧ user t = req_user req
    ∧ castObjectId (req_params_id req) = Some (_id t)
    ∧ getTodoById (before ++ after) req = (notFound, before ++ after)
    ∧ deleteTodo (before ++ after) req = (notFound, before ++ after).
Proof.
  intros Huniq Hst.
  destruct (deleteTodo_ok db req Hst)
    as (oid & t & before & after & Hcast & Hm & Hdb & Heq & Hbefore).
  apply matches_owned in Hm as [Hid Hu].
  assert (∀ x, x ∈ before ++ after →
               matches (Some oid) (ownedFilter req) x = false) as Hnone.
  { intros x [Hx|Hx]%elem_of_app; [by apply Hbefore|].
    apply not_true_is_false. intros [Hidx _]%matches_owned.
    unfold uniqueIds in Huniq. rewrite Hdb, fmap_app in Huniq. simpl in Huniq.
    apply NoDup_app in Huniq as (_ & _ & Htail).
    apply NoDup_cons in Htail as [Hfresh _]. apply Hfresh.
    rewrite Hid, <- Hidx. by apply list_elem_of_fmap_2. }
  exists t, before, after. rewrite Heq. simpl.
  repeat split; try done; try congruence.
  - by apply getTodoById_none with oid.
  - by apply deleteTodo_none with oid.
Qed.

Lemma delete_removes_the_task_witness :
  (deleteTodo (H := Reference.platform) Sample.db
     (Sample.request Sample.alice Sample.id2 [] [])).2
  = [Sample.milk; Sample.taxes; Sample.walk].
Proof.
  destruct (delete_removes_the_task (H := Reference.platform) Sample.db
              (Sample.request Sample.alice Sample.id2 [] []))
    as (t & before & after & _ & Hdb' & _);
    [by_evaluation | reflexivity |].
  reflexivity.
Defined.

(** X8. Existence hiding holds for update and delete as for get: for an
    identifier the store can cast, when no task has it or the tasks that
    have it belong to another owner, [deleteTodo], and [updateTodo] for a
    request without validation errors, answer the same 404 envelope and
    leave the store as it was. *)
Theorem update_delete_not_found `{Platform} (db : Store) (now : Z)
    (req : Request) (oid : ObjectId) :
  castObjectId (req_params_id req) = Some oid →
  (∀ t, t ∈ db → _id t = oid → user t ≠ req_user req) →
  deleteTodo db req = (notFound, db)
  ∧ (validationResult req = [] → updateTodo db now req = (notFound, db)).
Proof.
  intros Hcast Hnone.
  pose proof (not_owned_no_match db req oid Hnone) as Hno.
  split; [by apply deleteTodo_none with oid|].
  intros Hvalid. by apply updateTodo_none with oid.
Qed.

Lemma update_delete_not_found_witness :
  let req := Sample.request Sample.alice Sample.id3 []
               [("completed", JBool true)] in
  deleteTodo (H := Reference.platform) Sample.db req = (notFound, Sample.db)
  ∧ updateTodo (H := Reference.platform) Sample.db 5000 req
    = (notFound, Sample.db).
Proof.
  intros req.
  destruct (update_delete_not_found (H := Reference.platform) Sample.db 5000
              req Sample.id3 eq_refl) as [Hdel Hupd]; [by_enumeration|].
  split; [exact Hdel | by apply Hupd].
Defined.

(** ** What the handlers keep *)

Section KeepFacts.
Context `{Platform}.

Lemma createTodo_failed db newId now req :
  status (createTodo db newId now req).1 ≠ 201 →
  (createTodo db newId now req).2 = db.
Proof.
  unfold createTodo. destruct (validationResult req); [|done].
  by destruct (saveNew now _ db) as [e|[t db']].
Qed.

Lemma deleteTodo_failed db req :
  status (deleteTodo db req).1 ≠ 200 → (deleteTodo db req).2 = db.
Proof.
  unfold deleteTodo, findOneAndDelete, castId. simpl.
  destruct (castObjectId (req_params_id req)); simpl; [|done].
  by destruct (head _).
Qed.

Lemma replaceFirst_identity new (db : Store) :
  (∀ t, t ∈ db → _id t = _id new → identity t = identity new) →
  identity <$> replaceFirst new db = identity <$> db.
Proof.
  induction db as [|x db IH]; simpl; [done|]. intros Hsame.
  case_bool_decide as Hx; simpl.
  - f_equal. symmetry. apply Hsame; [left | done].
  - f_equal. apply IH. intros t Ht. apply Hsame. by right.
Qed.

Lemma removeFirst_append (p : Todo → bool) (db : Store) t :
  (∀ x, x ∈ db → p x = false) → p t = true →
  removeFirst p (db ++ [t]) = db
  ∧ head (List.filter p (db ++ [t])) = Some t.
Proof.
  intros Hnone Ht. induction db as [|x db IH]; simpl.
  - by rewrite Ht.
  - rewrite (Hnone x) by left.
    destruct IH as [-> ->]; [|done]. intros y Hy. apply Hnone. by right.
Qed.

End KeepFacts.

(** X9. A request that is not answered with a success envelope changes
    nothing: when [createTodo] does not answer 201, or [updateTodo] or
    [deleteTodo] do not answer 200, the store is the one before the
    request; [getTodoById] never changes it. *)
Theorem failed_requests_change_nothing `{Platform} (db : Store)
    (newId : ObjectId) (now : Z) (req : Request) :
  (succeeded (createTodo db newId now req).1 = false →
   (createTodo db newId now req).2 = db)
  ∧ (succeeded (updateTodo db now req).1 = false →
     (updateTodo db now req).2 = db)
  ∧ (succeeded (deleteTodo db req).1 = false → (deleteTodo db req).2 = db)
  ∧ (getTodoById db req).2 = db.
Proof.
  unfold succeeded. repeat split.
  - intros Hfail. apply createTodo_failed. intros Hst. by rewrite Hst in Hfail.
  - intros Hfail.
    destruct (updateTodo_cases db now req)
      as [(Hdb & _)|(old & new & _ & _ & _ & Heq)]; [done|].
    by rewrite Heq in Hfail.
  - intros Hfail. apply deleteTodo_failed. intros Hst. by rewrite Hst in Hfail.
  - apply getTodoById_store.
Qed.

Lemma failed_requests_change_nothing_witness :
  (createTodo (H := Reference.platform) Sample.db Sample.id1 5000
     (Sample.request Sample.alice "" [] [("title", JStr "again")])).2
  = Sample.db.
Proof.
  by apply (failed_requests_change_nothing (H := Reference.platform)).
Defined.

(** X10. The handlers keep identifiers unique: from a store in which no
    two tasks share an identifier, each of the five handlers leaves such
    a store, a create with an identifier already in use being refused. *)
Theorem handlers_keep_unique_ids `{Platform} (db : Store) (newId : ObjectId)
    (now : Z) (req : Request) :
  uniqueIds db →
  uniqueIds (getAllTodos db req).2
  ∧ uniqueIds (getTodoById db req).2
  ∧ uniqueIds (createTodo db newId now req).2
  ∧ uniqueIds (updateTodo db now req).2
  ∧ uniqueIds (deleteTodo db req).2
  ∧ (newId ∈ (_id <$> db) → status (createTodo db newId now req).1 ≠ 201).
Proof.
  intros Huniq.
  destruct (uniqueIds_preserved db newId now req Huniq)
    as (Hlist & Hget & Hcreate & Hupdate & Hdelete).
  repeat split; try done.
  intros Hused Hst.
  destruct (createTodo_created db newId now req Hst) as (t & _ & Hsave).
  apply saveNew_saved in Hsave as (Hvalid & Hfresh & _).
  apply Hfresh. by rewrite (proj1 (created_fields req newId Hvalid)).
Qed.

Lemma handlers_keep_unique_ids_witness :
  uniqueIds (createTodo (H := Reference.platform) Sample.db
               "65a000000000000000000009" 5000
               (Sample.request Sample.alice "" [] [("title", JStr "new")])).2.
Proof.
  apply (handlers_keep_unique_ids (H := Reference.platform)). by_evaluation.
Defined.

(** X11. An update never moves, adds or removes a task and never changes
    whose it is: the identifiers, owners and creation times of the
    stored tasks, in store order, are the same after [updateTodo] as
    before, whatever the request. *)
Theorem update_keeps_identities `{Platform} (db : Store) (now : Z)
    (req : Request) :
  uniqueIds db →
  identity <$> (updateTodo db now req).2 = identity <$> db.
Proof.
  intros Huniq.
  destruct (updateTodo_cases db now req)
    as [(-> & _)|(old & new & _ & Hf & Hsave & ->)]; [done|].
  simpl. apply findOne_Some in Hf as (Hin & _ & _).
  apply saveExisting_fields in Hsave as (_ & Hid & Hu & _ & _ & _ & _ & _ & Hcr).
  destruct (updateAssignments_identity (req_body req !! "title")
    (req_body req !! "description") (req_body req !! "completed")
    (req_body req !! "priority") (req_body req !! "dueDate")
    {| doc := old; invalid := [] |}) as (Hid' & Hu' & Hcr' & _).
  fold (edited req old) in Hid', Hu', Hcr'. simpl in Hid', Hu', Hcr'.
  apply replaceFirst_identity. intros t Ht Hsame.
  rewrite (uniqueIds_same_id db t old); [|done..|congruence].
  unfold identity. rewrite Hid, Hu, Hid', Hu', (Hcr Hcr'). done.
Qed.

Lemma update_keeps_identities_witness :
  identity <$> (updateTodo (H := Reference.platform) Sample.db 5000
                  (Sample.request Sample.alice Sample.id1 []
                     [("title", JStr "buy oat milk")])).2
  = identity <$> Sample.db.
Proof.
  apply (update_keeps_identities (H := Reference.platform)). by_evaluation.
Defined.

(** ** Creating *)

(** X12. [POST /todos] reads four keys of the body and nothing else:
    two requests of the same caller whose bodies agree on [title],
    [description], [priority] and [dueDate] get the same answer and
    leave the same store.  A [completed] key, or any other, changes
    nothing. *)
Theorem create_reads_four_keys `{Platform} (db : Store) (newId : ObjectId)
    (now : Z) (req req' : Request) :
  req_user req = req_user req' →
  (∀ k, k ∈ ["title"; "description"; "priority"; "dueDate"] →
        req_body req !! k = req_body req' !! k) →
  POST_todos db newId now req = POST_todos db newId now req'.
Proof.
  intros Hu Hkeys.
  assert (req_body req !! "title" = req_body req' !! "title") as Hti
    by (apply Hkeys; set_unfold; tauto).
  assert (req_body req !! "description" = req_body req' !! "description")
    as Hde by (apply Hkeys; set_unfold; tauto).
  assert (req_body req !! "priority" = req_body req' !! "priority") as Hpr
    by (apply Hkeys; set_unfold; tauto).
  assert (req_body req !! "dueDate" = req_body req' !! "dueDate") as Hdu
    by (apply Hkeys; set_unfold; tauto).
  unfold POST_todos, createTodo, validationResult, validate,
    createTodoValidation.
  cbn [req_errors req_body req_user mbind list_bind].
  unfold runChain, fieldValue. simpl.
  by rewrite Hti, Hde, Hpr, Hdu, Hu.
Qed.

Lemma create_reads_four_keys_witness :
  POST_todos (H := Reference.platform) Sample.db "65a000000000000000000009"
    5000
    (Sample.request Sample.alice "" []
       [("title", JStr "x"); ("completed", JBool true)])
  = POST_todos (H := Reference.platform) Sample.db "65a000000000000000000009"
      5000 (Sample.request Sample.alice "" [] [("title", JStr "x")]).
Proof.
  apply (create_reads_four_keys (H := Reference.platform)); [done|].
  by_enumeration.
Defined.

(** X13. Delete undoes create: when [createTodo] answers 201, a
    [deleteTodo] by the same caller for the new identifier answers 200
    and the store is again the one before the create. *)
Theorem create_then_delete `{Platform} (db : Store) (newId : ObjectId)
    (now : Z) (req del : Request) :
  status (createTodo db newId now req).1 = 201 →
  req_user del = req_user req →
  castObjectId (req_params_id del) = Some newId →
  deleteTodo (createTodo db newId now req).2 del
  = (ok 200 "Todo deleted successfully" None, db).
Proof.
  intros Hst Hu Hcast.
  destruct (createTodo_created db newId now req Hst) as (t & -> & Hsave).
  apply saveNew_saved in Hsave as (Hvalid & Hfresh & Ht & _).
  destruct (created_fields req newId Hvalid) as (Hid & Hown & _).
  simpl in Hid, Hown. rewrite Hid in Hfresh.
  assert (_id t = newId ∧ user t = req_user del) as [Hidt Hut]
    by (rewrite Ht; simpl; split; congruence).
  destruct (removeFirst_append (matches (Some newId) (ownedFilter del)) db t)
    as [Hrest Hhead].
  - intros x Hx. apply not_true_is_false. intros [Hidx _]%matches_owned.
    apply Hfresh. rewrite <- Hidx. by apply list_elem_of_fmap_2.
  - by apply matches_owned.
  - unfold deleteTodo, findOneAndDelete, castId. simpl.
    rewrite Hcast. simpl. by rewrite Hhead, Hrest.
Qed.

Lemma create_then_delete_witness :
  let post := Sample.request Sample.bob "" [] [("title", JStr "x")] in
  let del := Sample.request Sample.bob "65a000000000000000000009" [] [] in
  (deleteTodo (H := Reference.platform)
     (createTodo (H := Reference.platform) Sample.db
        "65a000000000000000000009" 5000 post).2 del).2
  = Sample.db.
Proof.
  intros post del.
  by rewrite (create_then_delete (H := Reference.platform) Sample.db
                "65a000000000000000000009" 5000 post del).
Defined.

(** ** What the chains of the routes reject *)

Section ChainFacts.
Context `{Platform}.

Lemma createTodo_400 db newId now req :
  status (createTodo db newId now req).1 = 400 ↔ validationResult req ≠ [].
Proof.
  unfold createTodo. destruct (validationResult req); simpl; [|done].
  by destruct (saveNew now _ db) as [e|[t db']].
Qed.

Lemma updateTodo_400 db now req :
  status (updateTodo db now req).1 = 400 ↔ validationResult req ≠ [].
Proof.
  unfold updateTodo. destruct (validationResult req); simpl; [|done].
  destruct (findOne _ db) as [e|[old|]]; simpl; try done.
  by destruct (saveExisting now old _ db) as [e|[t db']].
Qed.

Lemma handlers_400 db newId now req :
  validationResult req ≠ [] →
  createTodo db newId now req = (validationFailed (validationResult req), db)
  ∧ updateTodo db now req = (validationFailed (validationResult req), db).
Proof.
  intros Hne. unfold createTodo, updateTodo.
  by destruct (validationResult req).
Qed.

(** The errors of an optional chain with one validator. *)
Lemma runChain_optional k m f req :
  runChain (check k m (optional (body f))) req = []
  ↔ req_body req !! f = None
    ∨ runCheck k (toString (req_body req !! f)) = true.
Proof.
  unfold runChain, fieldValue. simpl.
  destruct (req_body req !! f) as [v|]; simpl; [|by split; [left|]].
  destruct (runCheck k _); simpl; split; try done; [by right | by intros [|]].
Qed.

(** The errors of a required chain with one validator. *)
Lemma runChain_required k m c req :
  isOptional c = false → checks c = [] →
  runChain (check k m c) req = []
  ↔ runCheck k (toString (fieldValue c req)) = true.
Proof.
  intros Hopt Hchecks. unfold runChain, check. simpl.
  rewrite Hopt, Hchecks. simpl.
  change (fieldValue _ req) with (fieldValue c req).
  by destruct (runCheck k _).
Qed.

Lemma runChain_no_check f req : runChain (optional (body f)) req = [].
Proof. unfold runChain. simpl. by case_match. Qed.

Lemma createTodoValidation_passes req :
  validationResult (validate createTodoValidation req) = []
  ↔ toString (req_body req !! "title") ≠ ""
    ∧ (req_body req !! "priority" = None
       ∨ toString (req_body req !! "priority") ∈ priorities)
    ∧ (req_body req !! "dueDate" = None
       ∨ isISO8601 (toString (req_body req !! "dueDate")) = true).
Proof.
  unfold validationResult, validate, createTodoValidation.
  cbn [req_errors mbind list_bind].
  rewrite runChain_no_check, app_nil_r. simpl.
  rewrite !app_nil, !runChain_optional, runChain_required by done.
  simpl. rewrite negb_true_iff, String.eqb_neq, bool_decide_eq_true.
  tauto.
Qed.

Lemma updateTodoValidation_passes req :
  validationResult (validate updateTodoValidation req) = []
  ↔ isMongoId (req_params_id req) = true
    ∧ (req_body req !! "completed" = None
       ∨ toString (req_body req !! "completed") ∈ ["true"; "false"; "1"; "0"])
    ∧ (req_body req !! "priority" = None
       ∨ toString (req_body req !! "priority") ∈ priorities)
    ∧ (req_body req !! "dueDate" = None
       ∨ isISO8601 (toString (req_body req !! "dueDate")) = true).
Proof.
  unfold validationResult, validate, updateTodoValidation.
  cbn [req_errors mbind list_bind].
  rewrite !runChain_no_check, app_nil_r. simpl.
  rewrite !app_nil, !runChain_optional, runChain_required by done.
  simpl. rewrite !bool_decide_eq_true.
  tauto.
Qed.

End ChainFacts.

(** X14. [POST /todos] is answered 400 exactly when the title is
    missing, null or empty, or a priority is given that is not low,
    medium or high, or a due date is given that is not ISO 8601; the
    store is then left as it was, and a missing title is reported as
    [Title is required]. *)
Theorem post_rejected_iff `{Platform} (db : Store) (newId : ObjectId) (now : Z)
    (req : Request) :
  let b := req_body req in
  (status (POST_todos db newId now req).1 ≠ 400 ↔
     toString (b !! "title") ≠ ""
     ∧ (b !! "priority" = None ∨ toString (b !! "priority") ∈ priorities)
     ∧ (b !! "dueDate" = None ∨ isISO8601 (toString (b !! "dueDate")) = true))
  ∧ (status (POST_todos db newId now req).1 = 400 →
     (POST_todos db newId now req).2 = db
     ∧ message (POST_todos db newId now req).1 = "Validation failed")
  ∧ (toString (b !! "title") = "" →
     {| err_param := "title"; err_msg := "Title is required" |}
     ∈ errors (POST_todos db newId now req).1).
Proof.
  intros b. subst b. unfold POST_todos.
  set (r := validate createTodoValidation req).
  split; [|split].
  - rewrite createTodo_400, <- createTodoValidation_passes. fold r.
    destruct (validationResult r); split; try done.
    + by intros _ Hne.
    + intros Hnot. by destruct Hnot.
  - intros Hst%createTodo_400.
    by destruct (handlers_400 db newId now r Hst) as [-> _].
  - intros Htitle.
    assert ({| err_param := "title"; err_msg := "Title is required" |}
            ∈ validationResult r) as Hin.
    { unfold r, validationResult, validate, createTodoValidation.
      cbn [req_errors mbind list_bind]. apply elem_of_app. left.
      unfold runChain, fieldValue. simpl. rewrite Htitle. simpl.
      by left. }
    destruct (handlers_400 db newId now r) as [-> _]; [|done].
    intros Hnil. rewrite Hnil in Hin. by apply elem_of_nil in Hin.
Qed.

Lemma post_rejected_iff_witness :
  status (POST_todos (H := Reference.platform) Sample.db
            "65a000000000000000000009" 5000
            (Sample.request Sample.alice "" []
               [("title", JStr "x"); ("priority", JStr "urgent")])).1 = 400
  ∧ errors (POST_todos (H := Reference.platform) Sample.db
              "65a000000000000000000009" 5000
              (Sample.request Sample.alice "" [] [("title", JNull)])).1
    = [{| err_param := "title"; err_msg := "Title is required" |}].
Proof.
  split; [|reflexivity].
  destruct (post_rejected_iff (H := Reference.platform) Sample.db
              "65a000000000000000000009" 5000
              (Sample.request Sample.alice "" []
                 [("title", JStr "x"); ("priority", JStr "urgent")]))
    as [Hiff _].
  destruct (decide (status (POST_todos (H := Reference.platform) Sample.db
              "65a000000000000000000009" 5000
              (Sample.request Sample.alice "" []
                 [("title", JStr "x"); ("priority", JStr "urgent")])).1 = 400))
    as [Hst|Hst]; [exact Hst|].
  apply Hiff in Hst as (_ & [Habsent|Hbad] & _); [discriminate|].
  exfalso. revert Hbad. by_evaluation.
Defined.

(** X15. [PUT /todos/:id] checks its chains before it looks anything
    up: it is answered 400 exactly when the identifier is not a MongoId,
    or a [completed] value is given that is not one of true, false, 1
    and 0, or a priority is given that is not low, medium or high, or a
    due date is given that is not ISO 8601.  The store is then left as
    it was, and a malformed identifier is reported as
    [Invalid todo ID]. *)
Theorem put_rejected_iff `{Platform} (db : Store) (now : Z) (req : Request) :
  let b := req_body req in
  (status (PUT_todo db now req).1 ≠ 400 ↔
     isMongoId (req_params_id req) = true
     ∧ (b !! "completed" = None
        ∨ toString (b !! "completed") ∈ ["true"; "false"; "1"; "0"])
     ∧ (b !! "priority" = None ∨ toString (b !! "priority") ∈ priorities)
     ∧ (b !! "dueDate" = None ∨ isISO8601 (toString (b !! "dueDate")) = true))
  ∧ (status (PUT_todo db now req).1 = 400 →
     (PUT_todo db now req).2 = db
     ∧ message (PUT_todo db now req).1 = "Validation failed")
  ∧ (isMongoId (req_params_id req) = false →
     {| err_param := "id"; err_msg := "Invalid todo ID" |}
     ∈ errors (PUT_todo db now req).1).
Proof.
  intros b. subst b. unfold PUT_todo.
  set (r := validate updateTodoValidation req).
  split; [|split].
  - rewrite updateTodo_400, <- updateTodoValidation_passes. fold r.
    destruct (validationResult r); split; try done.
    + by intros _ Hne.
    + intros Hnot. by destruct Hnot.
  - intros Hst%updateTodo_400.
    by destruct (handlers_400 db "" now r Hst) as [_ ->].
  - intros Hid.
    assert ({| err_param := "id"; err_msg := "Invalid todo ID" |}
            ∈ validationResult r) as Hin.
    { unfold r, validationResult, validate, updateTodoValidation.
      cbn [req_errors mbind list_bind]. apply elem_of_app. left.
      unfold runChain, fieldValue. simpl. rewrite Hid. simpl. by left. }
    destruct (handlers_400 db "" now r) as [_ ->]; [|done].
    intros Hnil. rewrite Hnil in Hin. by apply elem_of_nil in Hin.
Qed.

Lemma put_rejected_iff_witness :
  errors (PUT_todo (H := Reference.platform) Sample.db 5000
            (Sample.request Sample.alice "abc" [] [])).1
  = [{| err_param := "id"; err_msg := "Invalid todo ID" |}]
  ∧ (PUT_todo (H := Reference.platform) Sample.db 5000
       (Sample.request Sample.alice "abc" [] [])).2 = Sample.db.
Proof.
  split; [reflexivity|].
  destruct (put_rejected_iff (H := Reference.platform) Sample.db 5000
              (Sample.request Sample.alice "abc" [] [])) as (_ & Hkept & _).
  by apply Hkept.
Defined.

(** ** Clearing a description *)

Section DescriptionOnly.
Context `{Platform}.

Lemma modifiedPaths_withDescription old d :
  modifiedPaths old (withDescription d old)
  = if bool_decide (description old = d) then [] else ["description"].
Proof. unfold modifiedPaths. simpl. by repeat case_bool_decide. Qed.

Lemma updateTodo_description_only db now req old v :
  validationResult req = [] →
  findOne (ownedFilter req) db = inr (Some old) →
  req_body req = {["description" := v]} →
  title old ≠ "" →
  strlen (default "" (castString v)) ≤ 500 →
  ∃ new,
    updateTodo db now req
    = (ok 200 "Todo updated successfully" (Some (DataTodo new)),
       replaceFirst new db)
    ∧ description new = castString v
    ∧ title new = title old ∧ completed new = completed old
    ∧ priority new = priority old ∧ dueDate new = dueDate old.
Proof.
  intros Hvalid Hfound Hbody Htitle Hlen.
  unfold updateTodo. rewrite Hvalid, Hfound, Hbody.
  rewrite lookup_singleton_eq, !lookup_singleton_ne by done. simpl.
  unfold setDescription, edit, saveExisting. simpl.
  rewrite modifiedPaths_withDescription.
  unfold validationPaths. simpl.
  apply String.eqb_neq in Htitle. rewrite Htitle.
  replace (500 <? strlen (default "" (castString v))) with false
    by (symmetry; apply Z.ltb_ge; lia).
  rewrite andb_false_r.
  destruct (bool_decide (description old = castString v)) eqn:Hsame;
    rewrite !(bool_decide_eq_false_2 (_ ∈ _))
      by (intros Hin; repeat (apply elem_of_cons in Hin as [?|Hin]; [done|]);
          by apply elem_of_nil in Hin);
    simpl; eexists; split; done.
Qed.

End DescriptionOnly.

(** X16. A description can be set and cleared: [PUT /todos/:id] with
    the body [{ description: v }], for a value whose string form has at
    most 500 characters, a well-formed identifier and a task of the
    caller with a title, is answered 200 and the description of the
    task becomes the string form of [v], its other fields being the
    prior ones.  For [null], which has no string form and so no
    character, the task has no description afterwards. *)
Theorem put_sets_description `{Platform} (db : Store) (now : Z) (req : Request)
    (old : Todo) (v : JSON) :
  findOne (ownedFilter req) db = inr (Some old) →
  isMongoId (req_params_id req) = true →
  title old ≠ "" →
  req_body req = {["description" := v]} →
  strlen (default "" (castString v)) ≤ 500 →
  ∃ new,
    PUT_todo db now req
    = (ok 200 "Todo updated successfully" (Some (DataTodo new)),
       replaceFirst new db)
    ∧ description new = castString v
    ∧ (v = JNull → description new = None)
    ∧ title new = title old ∧ completed new = completed old
    ∧ priority new = priority old ∧ dueDate new = dueDate old.
Proof.
  intros Hfound Hid Htitle Hbody Hlen. unfold PUT_todo.
  set (r := validate updateTodoValidation req).
  assert (validationResult r = []) as Hvalid.
  { apply updateTodoValidation_passes. rewrite Hbody.
    rewrite !lookup_singleton_ne by done. tauto. }
  destruct (updateTodo_description_only db now r old v Hvalid Hfound Hbody
              Htitle Hlen) as (new & Heq & Hde & Hrest).
  exists new. split; [done|]. split; [done|]. split; [|done].
  intros ->. by rewrite Hde.
Qed.

Lemma put_sets_description_witness :
  let with_note := Document.withDescription (Some "2 litres") Sample.milk in
  let db := [with_note; Sample.taxes] in
  let req := Sample.request Sample.alice Sample.id1 []
               [("description", JNull)] in
  description <$> todoOf (PUT_todo (H := Reference.platform) db 5000 req).1
  = Some None.
Proof.
  intros with_note db req.
  destruct (put_sets_description (H := Reference.platform) db 5000 req
              with_note JNull) as (new & -> & _ & Hnull & _);
    [reflexivity | reflexivity | discriminate | reflexivity | by vm_compute |].
  simpl. by rewrite Hnull.
Defined.

(** ** The chains of the authentication routes *)

Section AuthFacts.
Variable isEmail : string → bool.

Lemma usernamePattern_spec s :
  Auth.usernamePattern s = true
  ↔ s ≠ "" ∧ ∀ c, c ∈ list_ascii_of_string s → Auth.wordChar c = true.
Proof.
  unfold Auth.usernamePattern.
  rewrite andb_true_iff, negb_true_iff, String.eqb_neq, forallb_forall.
  by setoid_rewrite list_elem_of_In.
Qed.

Lemma isLength_spec min max s :
  Auth.runCheck isEmail (Auth.IsLength min max) s = true
  ↔ (min ≤ String.length s)%nat
    ∧ match max with
      | Some m => (String.length s ≤ m)%nat
      | None => True
      end.
Proof.
  simpl. rewrite andb_true_iff, Nat.leb_le.
  destruct max as [m|]; [by rewrite Nat.leb_le | tauto].
Qed.

(** The errors of a chain, validator by validator. *)
Lemma runChain_cons f k m rest (b : gmap string JSON) :
  Auth.runChain isEmail {| Auth.field := f; Auth.checks := (k, m) :: rest |} b
  = (if Auth.runCheck isEmail k (toString (b !! f)) then []
     else [{| err_param := f; err_msg := m |}])
    ++ Auth.runChain isEmail {| Auth.field := f; Auth.checks := rest |} b.
Proof.
  unfold Auth.runChain. simpl. by destruct (Auth.runCheck _ _ _).
Qed.

Lemma runChain_nil f (b : gmap string JSON) :
  Auth.runChain isEmail {| Auth.field := f; Auth.checks := [] |} b = [].
Proof. reflexivity. Qed.

Lemma one_error_nil (c : bool) (e : FieldError) :
  (if c then [] else [e]) = [] ↔ c = true.
Proof. by destruct c. Qed.

Lemma one_error_elem (c : bool) (e : FieldError) :
  c = false → e ∈ (if c then [] else [e]).
Proof. intros ->. by left. Qed.

Lemma signup_errors (b : gmap string JSON) :
  let u := toString (b !! "username") in
  let e := toString (b !! "email") in
  let p := toString (b !! "password") in
  Auth.errorsOf isEmail Auth.signupValidation b
  = (if Auth.runCheck isEmail (Auth.IsLength 3 (Some 30%nat)) u then []
     else [{| err_param := "username";
              err_msg := "Username must be between 3 and 30 characters" |}])
    ++ (if Auth.usernamePattern u then []
        else [{| err_param := "username";
                 err_msg :=
                   "Username can only contain letters, numbers, and underscores"
               |}])
    ++ (if isEmail e then []
        else [{| err_param := "email";
                 err_msg := "Please provide a valid email" |}])
    ++ (if Auth.runCheck isEmail (Auth.IsLength 6 None) p then []
        else [{| err_param := "password";
                 err_msg := "Password must be at least 6 characters long" |}]).
Proof.
  intros u e p. unfold Auth.errorsOf, Auth.signupValidation.
  cbn [mbind list_bind].
  rewrite !runChain_cons, !runChain_nil, !app_nil_r, <- !app_assoc.
  reflexivity.
Qed.

Lemma login_errors (b : gmap string JSON) :
  Auth.errorsOf isEmail Auth.loginValidation b
  = (if isEmail (toString (b !! "email")) then []
     else [{| err_param := "email";
              err_msg := "Please provide a valid email" |}])
    ++ (if negb (String.eqb (toString (b !! "password")) "") then []
        else [{| err_param := "password";
                 err_msg := "Password is required" |}]).
Proof.
  unfold Auth.errorsOf, Auth.loginValidation. cbn [mbind list_bind].
  rewrite !runChain_cons, !runChain_nil, !app_nil_r. reflexivity.
Qed.

End AuthFacts.

(** X17. The signup chains leave no error exactly when the username has 3
    to 30 characters, all of them letters, digits or underscores, the
    email is one [isEmail] accepts and the password has at least 6
    characters.  A username of the wrong length is reported by the
    length rule and one with a character outside the class, or empty,
    by the pattern rule, each with its own message. *)
Theorem signup_accepted_iff (isEmail : string → bool) (b : gmap string JSON) :
  let u := toString (b !! "username") in
  let e := toString (b !! "email") in
  let p := toString (b !! "password") in
  (Auth.errorsOf isEmail Auth.signupValidation b = [] ↔
     (3 ≤ String.length u ≤ 30)%nat
     ∧ (∀ c, c ∈ list_ascii_of_string u → Auth.wordChar c = true)
     ∧ isEmail e = true
     ∧ (6 ≤ String.length p)%nat)
  ∧ ((String.length u < 3 ∨ 30 < String.length u)%nat →
     {| err_param := "username";
        err_msg := "Username must be between 3 and 30 characters" |}
     ∈ Auth.errorsOf isEmail Auth.signupValidation b)
  ∧ (Auth.usernamePattern u = false →
     {| err_param := "username";
        err_msg :=
          "Username can only contain letters, numbers, and underscores" |}
     ∈ Auth.errorsOf isEmail Auth.signupValidation b).
Proof.
  intros u e p. rewrite (signup_errors isEmail b). fold u e p.
  split; [|split].
  - rewrite !app_nil, !one_error_nil, !isLength_spec, usernamePattern_spec.
    split.
    + intros ((? & ?) & (? & ?) & ? & ? & _). repeat split; auto.
    + intros ((? & ?) & ? & ? & ?). repeat split; auto.
      intros Hu. rewrite Hu in *. simpl in *. lia.
  - intros Hlen. apply elem_of_app. left. apply one_error_elem.
    apply not_true_iff_false. rewrite isLength_spec. lia.
  - intros Hpat. apply elem_of_app. right. apply elem_of_app. left.
    by apply one_error_elem.
Qed.

Lemma signup_accepted_iff_witness :
  Auth.errorsOf Auth.simpleEmail Auth.signupValidation
    (list_to_map [("username", JStr "a!"); ("email", JStr "a@x.com");
                  ("password", JStr "Secret123")])
  = [{| err_param := "username";
        err_msg := "Username must be between 3 and 30 characters" |};
     {| err_param := "username";
        err_msg :=
          "Username can only contain letters, numbers, and underscores" |}]
  ∧ {| err_param := "username";
       err_msg := "Username must be between 3 and 30 characters" |}
    ∈ Auth.errorsOf Auth.simpleEmail Auth.signupValidation
        (list_to_map [("username", JStr "a!"); ("email", JStr "a@x.com");
                      ("password", JStr "Secret123")]).
Proof.
  split; [reflexivity|].
  apply (signup_accepted_iff Auth.simpleEmail). left. by vm_compute.
Defined.

(** X18. The login chains leave no error exactly when the email is one
    [isEmail] accepts and the password is not empty; a missing or empty
    password is reported as [Password is required]. *)
Theorem login_accepted_iff (isEmail : string → bool) (b : gmap string JSON) :
  (Auth.errorsOf isEmail Auth.loginValidation b = [] ↔
     isEmail (toString (b !! "email")) = true
     ∧ toString (b !! "password") ≠ "")
  ∧ (toString (b !! "password") = "" →
     {| err_param := "password"; err_msg := "Password is required" |}
     ∈ Auth.errorsOf isEmail Auth.loginValidation b).
Proof.
  rewrite (login_errors isEmail b). split.
  - by rewrite app_nil, !one_error_nil, negb_true_iff, String.eqb_neq.
  - intros Hp. apply elem_of_app. right. apply one_error_elem.
    rewrite Hp. reflexivity.
Qed.

Lemma login_accepted_iff_witness :
  Auth.errorsOf Auth.simpleEmail Auth.loginValidation
    (list_to_map [("email", JStr "a@x.com")])
  = [{| err_param := "password"; err_msg := "Password is required" |}]
  ∧ {| err_param := "password"; err_msg := "Password is required" |}
    ∈ Auth.errorsOf Auth.simpleEmail Auth.loginValidation
        (list_to_map [("email", JStr "a@x.com")]).
Proof.
  split; [reflexivity|].
  by apply (login_accepted_iff Auth.simpleEmail).
Defined.

(** ** Reading a task back *)

(** X19. With unique identifiers, [getTodoById] answers 200 exactly when
    the caller owns a stored task whose identifier the route parameter
    casts to, and the task of the answer is that task; [deleteTodo]
    answers 200 in exactly the same case. *)
Theorem get_and_delete_succeed_iff `{Platform} (db : Store) (req : Request) :
  uniqueIds db →
  (∀ t, getTodoById db req
        = (ok 200 "Todo retrieved successfully" (Some (DataTodo t)), db)
        ↔ t ∈ db ∧ user t = req_user req
          ∧ castObjectId (req_params_id req) = Some (_id t))
  ∧ (status (getTodoById db req).1 = 200 ↔ status (deleteTodo db req).1 = 200).
Proof.
  intros Huniq.
  assert (∀ r : Result (option Todo),
            findOne (ownedFilter req) db = r →
            (status (getTodoById db req).1 = 200 ↔ ∃ t, r = inr (Some t))
            ∧ (status (deleteTodo db req).1 = 200 ↔ ∃ t, r = inr (Some t)))
    as Hboth.
  { intros r <-. unfold getTodoById, deleteTodo, findOne, find,
      findOneAndDelete, castId. simpl.
    destruct (castObjectId (req_params_id req)) as [oid|]; simpl.
    - destruct (head _) as [t|]; simpl; split; split;
        try done; try (intros [? [=]]); by eexists.
    - split; split; try done; intros [? [=]]. }
  split.
  - intros t. split.
    + intros Heq. apply findOne_Some. unfold getTodoById in Heq.
      destruct (findOne (ownedFilter req) db) as [e|[t'|]]; by simplify_eq.
    + intros (Hin & Hu & Hcast). pose proof (findOne_owned db req) as Hf.
      rewrite Hcast in Hf. destruct Hf as ([t'|] & Hfind & Hfound).
      * destruct Hfound as (Hin' & Hid & _).
        rewrite (uniqueIds_same_id db t' t Huniq Hin' Hin Hid) in Hfind.
        unfold getTodoById. by rewrite Hfind.
      * by destruct (Hfound t Hin eq_refl).
  - destruct (Hboth _ eq_refl) as [-> ->]. done.
Qed.

Lemma get_and_delete_succeed_iff_witness :
  getTodoById (H := Reference.platform) Sample.db
    (Sample.request Sample.bob "65A000000000000000000003" [] [])
  = (ok 200 "Todo retrieved successfully" (Some (DataTodo Sample.taxes)),
     Sample.db).
Proof.
  apply (get_and_delete_succeed_iff (H := Reference.platform));
    [by_evaluation|].
  split; [by_evaluation | by split].
Defined.

(** ** The envelope *)

(** X20. Every answer of the five handlers has the standard envelope:
    its status is 200, 201, 400, 404 or 500; [success] is set exactly on
    200 and 201; an error detail comes exactly with 500 and field errors
    exactly with 400; data comes only with success. *)
Theorem handlers_answer_with_envelope `{Platform} (db : Store)
    (newId : ObjectId) (now : Z) (req : Request) :
  envelope (getAllTodos db req).1
  ∧ envelope (getTodoById db req).1
  ∧ envelope (createTodo db newId now req).1
  ∧ envelope (updateTodo db now req).1
  ∧ envelope (deleteTodo db req).1.
Proof.
  assert (∀ m d, envelope (ok 200 m d)) as Hok200.
  { intros m d. unfold envelope, succeeded. simpl. set_unfold.
    repeat split; try done; try tauto; by intros [? [=]]. }
  assert (∀ m d, envelope (ok 201 m d)) as Hok201.
  { intros m d. unfold envelope, succeeded. simpl. set_unfold.
    repeat split; try done; try tauto; by intros [? [=]]. }
  assert (envelope notFound) as H404.
  { unfold envelope, succeeded. simpl. set_unfold.
    repeat split; try done; try tauto; by intros [? [=]]. }
  assert (∀ m e, envelope (serverError m e)) as H500.
  { intros m e. unfold envelope, succeeded. simpl. set_unfold.
    repeat split; try done; try tauto; by intros [? [=]]. }
  assert (∀ e es, envelope (validationFailed (e :: es))) as H400.
  { intros e es. unfold envelope, succeeded. simpl. set_unfold.
    repeat split; try done; try tauto; by intros [? [=]]. }
  split; [|split; [|split; [|split]]].
  - rewrite getAllTodos_eq. destruct (_ <? 0); simpl; [apply H500|apply Hok200].
  - unfold getTodoById. destruct (findOne _ db) as [e|[t|]]; simpl; auto.
  - unfold createTodo. destruct (validationResult req); simpl; [|auto].
    destruct (saveNew now _ db) as [e|[t db']]; simpl; auto.
  - unfold updateTodo. destruct (validationResult req); simpl; [|auto].
    destruct (findOne _ db) as [e|[t|]]; simpl; auto.
    destruct (saveExisting now t _ db) as [e|[t' db']]; simpl; auto.
  - unfold deleteTodo. destruct (findOneAndDelete _ db) as [e|[[t|] db']];
      simpl; auto.
Qed.

(** ** Repeating an update *)

Section Idempotence.
Context `{Platform}.

(** Assigning the same values again changes nothing, whatever the
    timestamps of the document have become. *)
Lemma updateAssignments_again ti de co pr du t c u :
  let d := updateAssignments ti de co pr du {| doc := t; invalid := [] |} in
  invalid d = [] →
  updateAssignments ti de co pr du
    {| doc := withTimestamps c u (doc d); invalid := [] |}
  = {| doc := withTimestamps c u (doc d); invalid := [] |}.
Proof.
  unfold updateAssignments.
  destruct ti as [ti|], de as [de|], co as [co|], pr as [pr|], du as [du|].
  all: unfold assign, dueDateOnUpdate, setTitle, setDescription, setCompleted,
         setPriority, setDueDate, edit, invalidate; simpl.
  all: try destruct (castString ti) as [s|]; simpl.
  all: try destruct (castBoolean co) as [flag|]; simpl.
  all: try destruct (castString pr ≫= priorityOfName) as [prio|]; simpl.
  all: try destruct (truthy du); simpl.
  all: try destruct (newDate du) as [ms|]; simpl.
  all: try done.
Qed.

Lemma replaceFirst_again new (db : Store) :
  replaceFirst new (replaceFirst new db) = replaceFirst new db.
Proof.
  induction db as [|x db IH]; simpl; [done|].
  case_bool_decide as Hx; simpl.
  - by rewrite bool_decide_eq_true_2.
  - by rewrite bool_decide_eq_false_2, IH.
Qed.

Lemma modifiedPaths_same t : modifiedPaths t t = [].
Proof. unfold modifiedPaths. by rewrite !bool_decide_eq_true_2. Qed.

End Idempotence.

Section IdempotenceOfSave.
Context `{Platform}.

Lemma saveExisting_accepted now old d db t db' :
  saveExisting now old d db = inr (t, db') →
  invalid d = [] ∧ title (doc d) ≠ ""
  ∧ (t = doc d ∨ t = withTimestamps (createdAt old) now (doc d)).
Proof.
  unfold saveExisting.
  destruct (validationPaths _ d) as [|p ps] eqn:Hpaths; [|discriminate].
  unfold validationPaths in Hpaths.
  apply app_nil in Hpaths as [Hinv Hrest].
  apply app_nil in Hrest as [Htitle _].
  intros Heq. split; [done|]. split.
  - intros Hempty. rewrite Hempty in Htitle. discriminate.
  - destruct (modifiedPaths old (doc d)); injection Heq as <- _; auto.
Qed.

Lemma saveExisting_unchanged now t db :
  title t ≠ "" →
  saveExisting now t {| doc := t; invalid := [] |} db
  = inr (t, replaceFirst t db).
Proof.
  intros Htitle. unfold saveExisting. simpl. rewrite modifiedPaths_same.
  unfold validationPaths. simpl.
  by apply String.eqb_neq in Htitle as ->.
Qed.

Lemma withTimestamps_same t :
  withTimestamps (createdAt t) (updatedAt t) t = t.
Proof. by destruct t. Qed.

End IdempotenceOfSave.

(** X21. A successful update is idempotent: with unique identifiers,
    when [updateTodo] answers 200, the same request again, at any later
    time, gets the same answer, with the same task, and leaves the
    store as the first one left it. *)
Theorem put_idempotent `{Platform} (db : Store) (now now' : Z) (req : Request) :
  uniqueIds db →
  status (updateTodo db now req).1 = 200 →
  updateTodo (updateTodo db now req).2 now' req = updateTodo db now req.
Proof.
  intros Huniq Hst.
  destruct (updateTodo_cases db now req)
    as [(_ & _ & Hnot)|(old & new & Hvalid & Hf & Hsave & Heq)]; [done|].
  rewrite Heq. simpl.
  pose proof (saveExisting_fields _ _ _ _ _ _ Hsave) as (_ & Hid & Hu & _).
  pose proof (saveExisting_accepted _ _ _ _ _ _ Hsave) as (Hinv & Htitle & Hnew).
  destruct (updateAssignments_identity (req_body req !! "title")
    (req_body req !! "description") (req_body req !! "completed")
    (req_body req !! "priority") (req_body req !! "dueDate")
    {| doc := old; invalid := [] |}) as (Hid' & Hu' & _).
  fold (edited req old) in Hid', Hu'. simpl in Hid', Hu'.
  assert (findOne (ownedFilter req) (replaceFirst new db) = inr (Some new))
    as Hfound by (apply findOne_replaceFirst with old; congruence).
  assert (edited req new = {| doc := new; invalid := [] |}) as Hagain.
  { destruct Hnew as [-> | ->].
    - pose proof (updateAssignments_again _ _ _ _ _ old
                    (createdAt (doc (edited req old)))
                    (updatedAt (doc (edited req old))) Hinv) as Ha.
      fold (edited req old) in Ha. by rewrite withTimestamps_same in Ha.
    - exact (updateAssignments_again _ _ _ _ _ old _ _ Hinv). }
  assert (title new ≠ "") as Htitle'
    by (destruct Hnew as [-> | ->]; exact Htitle).
  unfold updateTodo. rewrite Hvalid, Hfound.
  fold (updateAssignments (req_body req !! "title")
          (req_body req !! "description") (req_body req !! "completed")
          (req_body req !! "priority") (req_body req !! "dueDate")
          {| doc := new; invalid := [] |}).
  fold (edited req new). rewrite Hagain.
  by rewrite (saveExisting_unchanged now' new _ Htitle'), replaceFirst_again.
Qed.

Lemma put_idempotent_witness :
  let req := Sample.request Sample.bob Sample.id3 []
               [("completed", JBool true); ("priority", JStr "low")] in
  updateTodo (H := Reference.platform)
    (updateTodo (H := Reference.platform) Sample.db 5000 req).2 9000 req
  = updateTodo (H := Reference.platform) Sample.db 5000 req.
Proof.
  intros req.
  apply (put_idempotent (H := Reference.platform));
    [by_evaluation | reflexivity].
Defined.

(** ** Creating and listing *)

(** X22. A created task shows up in its owner's list and in no one
    else's: after a 201, the selection of a list request without
    [completed] and [priority] filters is the one before plus the new
    task when the request is the creator's, and the one before when it
    is another caller's; so the creator's total grows by one and every
    other total stays. *)
Theorem create_adds_to_owner_list `{Platform} (db : Store) (newId : ObjectId)
    (now : Z) (req lr : Request) :
  status (createTodo db newId now req).1 = 201 →
  req_query lr !! "completed" = None →
  req_query lr !! "priority" = None →
  ∃ t,
    todoOf (createTodo db newId now req).1 = Some t
    ∧ (req_user lr = req_user req →
       selected (listFilter lr) (createTodo db newId now req).2
       = selected (listFilter lr) db ++ [t])
    ∧ (req_user lr ≠ req_user req →
       selected (listFilter lr) (createTodo db newId now req).2
       = selected (listFilter lr) db).
Proof.
  intros Hst Hco Hpr.
  destruct (createTodo_created db newId now req Hst) as (t & -> & Hsave).
  apply saveNew_saved in Hsave as (Hvalid & _ & Ht & _).
  destruct (created_fields req newId Hvalid) as (_ & Hown & _).
  assert (user t = req_user req) as Hu by (rewrite Ht; exact Hown).
  exists t. split; [done|]. simpl.
  unfold selected. rewrite List.filter_app. simpl.
  unfold matches, listFilter. simpl. rewrite Hco, Hpr, Hu. simpl.
  split; intros Hwho.
  - by rewrite bool_decide_eq_true_2.
  - rewrite bool_decide_eq_false_2 by congruence. simpl. by rewrite app_nil_r.
Qed.

Lemma create_adds_to_owner_list_witness :
  let post := Sample.request Sample.bob "" [] [("title", JStr "x")] in
  let db' := (createTodo (H := Reference.platform) Sample.db
                "65a000000000000000000009" 5000 post).2 in
  length (selected (listFilter (Sample.request Sample.bob "" [] [])) db')
  = 2%nat
  ∧ length (selected (listFilter (Sample.request Sample.alice "" [] [])) db')
    = 3%nat.
Proof.
  intros post db'. unfold db'.
  destruct (create_adds_to_owner_list (H := Reference.platform) Sample.db
              "65a000000000000000000009" 5000 post
              (Sample.request Sample.bob "" [] []))
    as (t & _ & Hown & _); [reflexivity..|].
  destruct (create_adds_to_owner_list (H := Reference.platform) Sample.db
              "65a000000000000000000009" 5000 post
              (Sample.request Sample.alice "" [] []))
    as (t' & _ & _ & Hother); [reflexivity..|].
  rewrite Hown, Hother; [|discriminate|reflexivity].
  split; [|reflexivity]. rewrite length_app. reflexivity.
Defined.
